(** * Omnitrack: the inventory reservation and order-lifecycle engine

    A shallow embedding of [models.py] and of the transactional methods of
    [database.py] (class [Database]), followed by the properties of the
    specification that concern them.

    Conventions of the embedding.
    - The PostgreSQL database is the record [Tables]: four tables, each a
      list of rows in insertion order.  SQL statements are list functions:
      [SELECT ... WHERE c] + [fetchone] is [fetchone c], [fetchall] is
      [filter c], [UPDATE ... SET s WHERE c] is [update_rows c s] and its
      [cur.rowcount] is [rowcount c], [INSERT] appends a row.
    - Every method opens a connection of its own.  A method is a function
      from the committed tables to its Python return value and the list of
      snapshots it commits, oldest first ([conn.commit()] adds the working
      copy; [conn.rollback()] and a return without commit add nothing).
      The tables after the call are the last snapshot, see [final].
    - No statement of the model raises.  The [except Exception] branches of
      [create_order] and [update_order_status] (rollback, then [None] or
      [False]) answer failures of the substrate, which are outside the
      model; what they would commit is what a missing order commits:
      nothing.
    - [CURRENT_TIMESTAMP] is the argument [now] of every method; the audit
      row that a method has [create_inventory_transaction] write carries the
      same reading.
    - [int] is [Z]; [float] prices are carried as rationals, no claim
      computes with them; [datetime] is [Z]. *)

From Stdlib Require Import ZArith List Bool String Lia.
From Stdlib Require Import QArith_base.
From Stdlib Require Import Permutation Sorted.
Import ListNotations.
Local Open Scope string_scope.
Local Open Scope list_scope.
Local Open Scope Z_scope.

(** ** models.py *)

Inductive OrderStatus : Type := PLACED | PAID | DELIVERED | CANCELLED.

Inductive TransactionType : Type := RESERVE | SALE | RELEASE | RESTOCK.

Definition TransactionType_eqb (a b : TransactionType) : bool :=
  match a, b with
  | RESERVE, RESERVE | SALE, SALE | RELEASE, RELEASE | RESTOCK, RESTOCK => true
  | _, _ => false
  end.

Inductive UserRole : Type := ADMIN | STAFF | CUSTOMER.

Definition UserRole_eqb (a b : UserRole) : bool :=
  match a, b with
  | ADMIN, ADMIN | STAFF, STAFF | CUSTOMER, CUSTOMER => true
  | _, _ => false
  end.

Module User.
Record t : Type := mk {
  id : Z;
  username : string;
  password : string;
  role : UserRole;
  email : string;
  created_at : Z
}.
End User.

Module Product.
Record t : Type := mk {
  id : Z;
  name : string;
  description : string;
  price : Q;
  stock_quantity : Z;
  reserved_quantity : Z;
  low_stock_threshold : Z;
  created_at : Z;
  updated_at : Z
}.

Definition available_quantity (self : t) : Z :=
  stock_quantity self - reserved_quantity self.

Definition is_low_stock (self : t) : bool :=
  stock_quantity self <=? low_stock_threshold self.
End Product.

Module OrderItem.
Record t : Type := mk {
  product_id : Z;
  quantity : Z;
  unit_price : Q
}.
End OrderItem.

Module Order.
Record t : Type := mk {
  id : Z;
  customer_id : Z;
  items : list OrderItem.t;
  status : OrderStatus;
  created_at : Z;
  updated_at : Z;
  paid_at : option Z;
  delivered_at : option Z
}.
End Order.

Module InventoryTransaction.
Record t : Type := mk {
  id : Z;
  product_id : Z;
  transaction_type : TransactionType;
  quantity : Z;
  order_id : option Z;
  user_id : option Z;
  notes : string;
  timestamp : Z
}.
End InventoryTransaction.

(** ** The tables

    The rows of [products] and of [inventory_transactions] have the columns
    of the dataclasses they are read into.  An [orders] row is an [Order]
    without its items, which live in [order_items]. *)

Module OrdersRow.
Record t : Type := mk {
  id : Z;
  customer_id : Z;
  status : OrderStatus;
  created_at : Z;
  updated_at : Z;
  paid_at : option Z;
  delivered_at : option Z
}.
End OrdersRow.

Module OrderItemsRow.
Record t : Type := mk {
  order_id : Z;
  product_id : Z;
  quantity : Z;
  unit_price : Q
}.
End OrderItemsRow.

Record Tables : Type := mkTables {
  products : list Product.t;
  orders : list OrdersRow.t;
  order_items : list OrderItemsRow.t;
  inventory_transactions : list InventoryTransaction.t
}.

Definition empty_tables : Tables := mkTables [] [] [] [].

(** ** SQL statements on a table *)

Section Sql.
Context {row : Type}.

Definition fetchone (cond : row -> bool) (rows : list row) : option row :=
  find cond rows.

Definition update_rows (cond : row -> bool) (set : row -> row)
    (rows : list row) : list row :=
  map (fun r => if cond r then set r else r) rows.

Definition rowcount (cond : row -> bool) (rows : list row) : Z :=
  Z.of_nat (List.length (filter cond rows)).

Definition insert (r : row) (rows : list row) : list row := rows ++ [r].
End Sql.

(** [ORDER BY key] and [ORDER BY key DESC] on integer columns.  SQL leaves
    the order of rows with equal keys open; here they keep the order they
    have in the table. *)
Section OrderBy.
Context {row : Type}.

Fixpoint insert_by (key : row -> Z) (r : row) (rows : list row) : list row :=
  match rows with
  | [] => [r]
  | r' :: rest =>
      if key r <=? key r' then r :: rows else r' :: insert_by key r rest
  end.

Definition order_by (key : row -> Z) (rows : list row) : list row :=
  fold_right (insert_by key) [] rows.

Definition order_by_desc (key : row -> Z) (rows : list row) : list row :=
  order_by (fun r => - key r) rows.
End OrderBy.

(** Modelled from the spec: the table definitions, and with them the id
    generators, are not among the sources.  The spec asks the substrate
    for durable auto-incrementing identifiers and for nothing else on the
    columns, so an inserted row gets one more than the largest id of its
    table and no column carries a constraint. *)
Definition next_id (ids : list Z) : Z := 1 + fold_right Z.max 0 ids.

(** The tables after a call that started on [d] and committed [commits]. *)
Definition final (d : Tables) (commits : list Tables) : Tables := last commits d.

(** Column assignments of the UPDATE statements. *)

Definition set_products (ps : list Product.t) (d : Tables) : Tables :=
  mkTables ps (orders d) (order_items d) (inventory_transactions d).

Definition set_orders (os : list OrdersRow.t) (d : Tables) : Tables :=
  mkTables (products d) os (order_items d) (inventory_transactions d).

Definition set_order_items (ois : list OrderItemsRow.t) (d : Tables) : Tables :=
  mkTables (products d) (orders d) ois (inventory_transactions d).

Definition set_inventory_transactions (ts : list InventoryTransaction.t)
    (d : Tables) : Tables :=
  mkTables (products d) (orders d) (order_items d) ts.

(** [SET stock_quantity = stock_quantity + ds,
         reserved_quantity = reserved_quantity + dr,
         updated_at = CURRENT_TIMESTAMP] *)
Definition bump (ds dr now : Z) (p : Product.t) : Product.t :=
  Product.mk (Product.id p) (Product.name p) (Product.description p)
    (Product.price p) (Product.stock_quantity p + ds)
    (Product.reserved_quantity p + dr) (Product.low_stock_threshold p)
    (Product.created_at p) now.

Definition has_id (product_id : Z) (p : Product.t) : bool :=
  Product.id p =? product_id.

(** [WHERE id = %s AND reserved_quantity >= %s] *)
Definition has_id_reserved (product_id quantity : Z) (p : Product.t) : bool :=
  (Product.id p =? product_id) && (Product.reserved_quantity p >=? quantity).

(** The keyword arguments of [update_product]: a Python dict has each key
    once, so the arguments are a record of optional values, one field per
    column a caller can name. *)
Module Kwargs.
Record t : Type := mk {
  name : option string;
  description : option string;
  price : option Q;
  stock_quantity : option Z;
  reserved_quantity : option Z;
  low_stock_threshold : option Z
}.

Definition is_empty (k : t) : bool :=
  match name k, description k, price k, stock_quantity k,
        reserved_quantity k, low_stock_threshold k with
  | None, None, None, None, None, None => true
  | _, _, _, _, _, _ => false
  end.

Definition or_old {A : Type} (new : option A) (old : A) : A :=
  match new with Some v => v | None => old end.

Definition apply (k : t) (now : Z) (p : Product.t) : Product.t :=
  Product.mk (Product.id p)
    (or_old (name k) (Product.name p))
    (or_old (description k) (Product.description p))
    (or_old (price k) (Product.price p))
    (or_old (stock_quantity k) (Product.stock_quantity p))
    (or_old (reserved_quantity k) (Product.reserved_quantity p))
    (or_old (low_stock_threshold k) (Product.low_stock_threshold p))
    (Product.created_at p) now.
End Kwargs.

(** ** database.py, class Database *)

Module Database.

Definition get_product_by_id (product_id : Z) (d : Tables) : option Product.t :=
  fetchone (has_id product_id) (products d).

Definition create_inventory_transaction (now product_id : Z)
    (transaction_type : TransactionType) (quantity : Z)
    (order_id user_id : option Z) (notes : string) (d : Tables)
    : InventoryTransaction.t * list Tables :=
  let row :=
    InventoryTransaction.mk
      (next_id (map InventoryTransaction.id (inventory_transactions d)))
      product_id transaction_type quantity order_id user_id notes now in
  (row, [set_inventory_transactions (insert row (inventory_transactions d)) d]).

Definition create_product (now : Z) (name description : string) (price : Q)
    (stock_quantity low_stock_threshold : Z) (d : Tables)
    : Product.t * list Tables :=
  let product :=
    Product.mk (next_id (map Product.id (products d))) name description price
      stock_quantity 0 low_stock_threshold now now in
  let d1 := set_products (insert product (products d)) d in
  let '(_, audit) :=
    create_inventory_transaction now (Product.id product) RESTOCK
      stock_quantity None None "Initial stock" d1 in
  (product, d1 :: audit).

Definition update_product (now product_id : Z) (kwargs : Kwargs.t) (d : Tables)
    : bool * list Tables :=
  if Kwargs.is_empty kwargs then (false, [])
  else
    (rowcount (has_id product_id) (products d) >? 0,
     [set_products
        (update_rows (has_id product_id) (Kwargs.apply kwargs now) (products d))
        d]).

Definition restock_product (now product_id quantity : Z) (user_id : option Z)
    (d : Tables) : bool * list Tables :=
  let d1 :=
    set_products
      (update_rows (has_id product_id) (bump quantity 0 now) (products d)) d in
  if rowcount (has_id product_id) (products d) >? 0 then
    let '(_, audit) :=
      create_inventory_transaction now product_id RESTOCK quantity
        None user_id "" d1 in
    (true, d1 :: audit)
  else (false, [d1]).

Definition reserve_stock (now product_id quantity order_id : Z) (d : Tables)
    : bool * list Tables :=
  match fetchone (has_id product_id) (products d) with
  | Some row =>
      if Product.stock_quantity row - Product.reserved_quantity row >=? quantity
      then
        let d1 :=
          set_products
            (update_rows (has_id product_id) (bump 0 quantity now) (products d))
            d in
        let '(_, audit) :=
          create_inventory_transaction now product_id RESERVE quantity
            (Some order_id) None "" d1 in
        (true, d1 :: audit)
      else (false, [])
  | None => (false, [])
  end.

Definition release_stock (now product_id quantity order_id : Z) (d : Tables)
    : bool * list Tables :=
  let cond := has_id_reserved product_id quantity in
  let d1 :=
    set_products (update_rows cond (bump 0 (- quantity) now) (products d)) d in
  if rowcount cond (products d) >? 0 then
    let '(_, audit) :=
      create_inventory_transaction now product_id RELEASE quantity
        (Some order_id) None "" d1 in
    (true, d1 :: audit)
  else (false, [d1]).

Definition sell_product (now product_id quantity order_id : Z) (d : Tables)
    : bool * list Tables :=
  let cond := has_id_reserved product_id quantity in
  let d1 :=
    set_products
      (update_rows cond (bump (- quantity) (- quantity) now) (products d)) d in
  if rowcount cond (products d) >? 0 then
    let '(_, audit) :=
      create_inventory_transaction now product_id SALE quantity
        (Some order_id) None "" d1 in
    (true, d1 :: audit)
  else (false, [d1]).

(** The body of the [for item in items] loop of [create_order], on the
    working copy [w] of the open transaction.  [None] is the early
    [conn.rollback(); return None]. *)
Fixpoint reserve_items (now order_id : Z) (items : list OrderItem.t)
    (w : Tables) : option Tables :=
  match items with
  | [] => Some w
  | item :: rest =>
      let product_id := OrderItem.product_id item in
      let quantity := OrderItem.quantity item in
      match fetchone (has_id product_id) (products w) with
      | None => None
      | Some product_row =>
          if Product.stock_quantity product_row
             - Product.reserved_quantity product_row <? quantity
          then None
          else
            let w1 :=
              set_products
                (update_rows (has_id product_id) (bump 0 quantity now)
                   (products w)) w in
            let w2 :=
              set_inventory_transactions
                (insert
                   (InventoryTransaction.mk
                      (next_id
                         (map InventoryTransaction.id
                            (inventory_transactions w1)))
                      product_id RESERVE quantity (Some order_id) None "" now)
                   (inventory_transactions w1)) w1 in
            let w3 :=
              set_order_items
                (insert
                   (OrderItemsRow.mk order_id product_id quantity
                      (OrderItem.unit_price item))
                   (order_items w2)) w2 in
            reserve_items now order_id rest w3
      end
  end.

Definition create_order (now customer_id : Z) (items : list OrderItem.t)
    (d : Tables) : option Order.t * list Tables :=
  let order_row :=
    OrdersRow.mk (next_id (map OrdersRow.id (orders d))) customer_id PLACED
      now now None None in
  let order_id := OrdersRow.id order_row in
  match reserve_items now order_id items
          (set_orders (insert order_row (orders d)) d) with
  | None => (None, [])
  | Some w =>
      (Some
         (Order.mk (OrdersRow.id order_row) (OrdersRow.customer_id order_row)
            items (OrdersRow.status order_row) (OrdersRow.created_at order_row)
            (OrdersRow.updated_at order_row) (OrdersRow.paid_at order_row)
            (OrdersRow.delivered_at order_row)),
       [w])
  end.

Definition order_has_id (order_id : Z) (r : OrdersRow.t) : bool :=
  OrdersRow.id r =? order_id.

Definition item_of_order (order_id : Z) (r : OrderItemsRow.t) : bool :=
  OrderItemsRow.order_id r =? order_id.

Definition get_order_by_id (order_id : Z) (d : Tables) : option Order.t :=
  match fetchone (order_has_id order_id) (orders d) with
  | None => None
  | Some order_row =>
      let item_rows := filter (item_of_order order_id) (order_items d) in
      let items :=
        map (fun r => OrderItem.mk (OrderItemsRow.product_id r)
                        (OrderItemsRow.quantity r) (OrderItemsRow.unit_price r))
          item_rows in
      Some
        (Order.mk (OrdersRow.id order_row) (OrdersRow.customer_id order_row)
           items (OrdersRow.status order_row) (OrdersRow.created_at order_row)
           (OrdersRow.updated_at order_row) (OrdersRow.paid_at order_row)
           (OrdersRow.delivered_at order_row))
  end.

(** One round of the [for item_row in item_rows] loop of the PAID branch:
    the guarded UPDATE, whose rowcount is not read, then the INSERT. *)
Definition sale_item (now order_id : Z) (user_id : option Z) (w : Tables)
    (item_row : OrderItemsRow.t) : Tables :=
  let product_id := OrderItemsRow.product_id item_row in
  let quantity := OrderItemsRow.quantity item_row in
  let w1 :=
    set_products
      (update_rows (has_id_reserved product_id quantity)
         (bump (- quantity) (- quantity) now) (products w)) w in
  set_inventory_transactions
    (insert
       (InventoryTransaction.mk
          (next_id (map InventoryTransaction.id (inventory_transactions w1)))
          product_id SALE quantity (Some order_id) user_id "" now)
       (inventory_transactions w1)) w1.

(** The same for the CANCELLED branch. *)
Definition release_item (now order_id : Z) (user_id : option Z) (w : Tables)
    (item_row : OrderItemsRow.t) : Tables :=
  let product_id := OrderItemsRow.product_id item_row in
  let quantity := OrderItemsRow.quantity item_row in
  let w1 :=
    set_products
      (update_rows (has_id_reserved product_id quantity)
         (bump 0 (- quantity) now) (products w)) w in
  set_inventory_transactions
    (insert
       (InventoryTransaction.mk
          (next_id (map InventoryTransaction.id (inventory_transactions w1)))
          product_id RELEASE quantity (Some order_id) user_id "" now)
       (inventory_transactions w1)) w1.

(** [UPDATE orders SET status = %s, updated_at = CURRENT_TIMESTAMP
     [, paid_at = CURRENT_TIMESTAMP | , delivered_at = CURRENT_TIMESTAMP]] *)
Definition set_status (status : OrderStatus) (now : Z) (r : OrdersRow.t)
    : OrdersRow.t :=
  OrdersRow.mk (OrdersRow.id r) (OrdersRow.customer_id r) status
    (OrdersRow.created_at r) now
    (match status with PAID => Some now | _ => OrdersRow.paid_at r end)
    (match status with DELIVERED => Some now | _ => OrdersRow.delivered_at r end).

Definition update_order_status (now order_id : Z) (status : OrderStatus)
    (user_id : option Z) (d : Tables) : bool * list Tables :=
  match fetchone (order_has_id order_id) (orders d) with
  | None => (false, [])
  | Some order_row =>
      let item_rows := filter (item_of_order order_id) (order_items d) in
      let w :=
        match status with
        | PAID => fold_left (sale_item now order_id user_id) item_rows d
        | DELIVERED => d
        | CANCELLED => fold_left (release_item now order_id user_id) item_rows d
        | PLACED => d
        end in
      let w' :=
        set_orders
          (update_rows (order_has_id order_id) (set_status status now)
             (orders w)) w in
      (rowcount (order_has_id order_id) (orders w) >? 0, [w'])
  end.

End Database.

(** ** database.py, class Database: the users

    The table [users] is read and written by these methods only, and they
    touch no other table: it is kept apart from [Tables], as the list of its
    rows.  [create_user] returns the user and the table it commits. *)

Module DatabaseUsers.

Definition named (username : string) (u : User.t) : bool :=
  String.eqb (User.username u) username.

Definition create_user (now : Z) (username password : string) (role : UserRole)
    (email : string) (users : list User.t) : User.t * list User.t :=
  let row :=
    User.mk (next_id (map User.id users)) username password role email now in
  (row, insert row users).

Definition get_user_by_username (username : string) (users : list User.t)
    : option User.t :=
  fetchone (named username) users.

Definition get_user_by_id (user_id : Z) (users : list User.t) : option User.t :=
  fetchone (fun u => User.id u =? user_id) users.

Definition get_all_users (users : list User.t) : list User.t :=
  order_by User.id users.

Definition authenticate_user (username password : string) (users : list User.t)
    : option User.t :=
  match get_user_by_username username users with
  | Some user =>
      if String.eqb (User.password user) password then Some user else None
  | None => None
  end.

End DatabaseUsers.

(** ** database.py, class Database: the queries *)

Module DatabaseQueries.

Definition get_all_products (d : Tables) : list Product.t :=
  order_by Product.id (products d).

(** [WHERE stock_quantity <= low_stock_threshold ORDER BY stock_quantity] *)
Definition get_low_stock_products (d : Tables) : list Product.t :=
  order_by Product.stock_quantity
    (filter
       (fun p => Product.stock_quantity p <=? Product.low_stock_threshold p)
       (products d)).

Definition get_transactions_by_product (product_id : Z) (d : Tables)
    : list InventoryTransaction.t :=
  order_by_desc InventoryTransaction.timestamp
    (filter (fun t => InventoryTransaction.product_id t =? product_id)
       (inventory_transactions d)).

Definition get_all_transactions (d : Tables) : list InventoryTransaction.t :=
  order_by_desc InventoryTransaction.timestamp (inventory_transactions d).

(** The body of the loop [for order_row in order_rows]: the items of the
    order are fetched and the [Order] is built. *)
Definition order_of_row (d : Tables) (order_row : OrdersRow.t) : Order.t :=
  let item_rows :=
    filter (Database.item_of_order (OrdersRow.id order_row)) (order_items d) in
  let items :=
    map (fun r => OrderItem.mk (OrderItemsRow.product_id r)
                    (OrderItemsRow.quantity r) (OrderItemsRow.unit_price r))
      item_rows in
  Order.mk (OrdersRow.id order_row) (OrdersRow.customer_id order_row)
    items (OrdersRow.status order_row) (OrdersRow.created_at order_row)
    (OrdersRow.updated_at order_row) (OrdersRow.paid_at order_row)
    (OrdersRow.delivered_at order_row).

Definition get_orders_by_customer (customer_id : Z) (d : Tables) : list Order.t :=
  map (order_of_row d)
    (order_by_desc OrdersRow.created_at
       (filter (fun r => OrdersRow.customer_id r =? customer_id) (orders d))).

Definition get_all_orders (d : Tables) : list Order.t :=
  map (order_of_row d) (order_by_desc OrdersRow.created_at (orders d)).

End DatabaseQueries.

(** ** database.py: _create_demo_data

    The constructor of [Database] runs it on every start.  The state is
    the table of the users with the other tables. *)

Definition demo_users : list (string * string * UserRole * string) :=
  [("admin", "admin123", ADMIN, "admin@omnitrack.com");
   ("staff", "staff123", STAFF, "staff@omnitrack.com");
   ("customer", "customer123", CUSTOMER, "customer@example.com")].

Definition demo_products : list (string * string * Q * Z * Z) :=
  [("Running Shoes", "High-performance running shoes", Qmake 12999 100, 25, 5);
   ("Basketball", "Official size basketball", Qmake 2999 100, 15, 3);
   ("Tennis Racket", "Professional tennis racket", Qmake 19999 100, 8, 2);
   ("Soccer Ball", "FIFA approved soccer ball", Qmake 3999 100, 12, 3);
   ("Yoga Mat", "Non-slip yoga mat", Qmake 4999 100, 20, 5);
   ("Dumbbells Set", "Adjustable dumbbells 5-50 lbs", Qmake 29999 100, 6, 2);
   ("Sports Water Bottle", "Insulated water bottle", Qmake 1999 100, 30, 10);
   ("Training T-Shirt", "Moisture-wicking athletic shirt", Qmake 2499 100, 18, 5)].

Definition create_demo_data (now : Z) (s : list User.t * Tables)
    : list User.t * Tables :=
  let users :=
    if Z.of_nat (List.length (DatabaseUsers.get_all_users (fst s))) =? 0
    then
      fold_left
        (fun users u =>
           match u with
           | (username, password, role, email) =>
               snd (DatabaseUsers.create_user now username password role email
                      users)
           end)
        demo_users (fst s)
    else fst s in
  let d :=
    if Z.of_nat (List.length (DatabaseQueries.get_all_products (snd s))) =? 0
    then
      fold_left
        (fun d p =>
           match p with
           | (name, description, price, stock, threshold) =>
               final d
                 (snd (Database.create_product now name description price stock
                         threshold d))
           end)
        demo_products (snd s)
    else snd s in
  (users, d).

(** ** auth.py

    [st.session_state] holds two keys, each of which may be absent.
    [require_auth] and [require_role] answer whether the page goes on
    ([true]) or is stopped by [st.stop()] ([false]). *)

Module Auth.

Record SessionState : Type := mk {
  authenticated : option bool;
  current_user : option (option User.t)
}.

Definition new_session : SessionState := mk None None.

Definition initialize_auth (s : SessionState) : SessionState :=
  mk (match authenticated s with None => Some false | Some b => Some b end)
     (match current_user s with None => Some None | Some u => Some u end).

Definition login_user (user : User.t) (_ : SessionState) : SessionState :=
  mk (Some true) (Some (Some user)).

Definition logout_user (_ : SessionState) : SessionState :=
  mk (Some false) (Some None).

Definition get_current_user (s : SessionState) : option User.t :=
  match current_user s with Some u => u | None => None end.

Definition is_authenticated (s : SessionState) : bool :=
  match authenticated s with Some b => b | None => false end.

Definition has_role (role : UserRole) (s : SessionState) : bool :=
  match get_current_user s with
  | Some user => UserRole_eqb (User.role user) role
  | None => false
  end.

Definition require_auth (s : SessionState) : bool := is_authenticated s.

Definition require_role (role : UserRole) (s : SessionState) : bool :=
  if require_auth s then has_role role s else false.

(** The outcomes of the two forms of [show_login_form]. *)
Inductive Message : Type :=
| LoggedIn
| InvalidCredentials
| MissingCredentials
| AccountCreated
| CredentialsRequired
| UsernameTooShort
| PasswordTooShort
| PasswordsDoNotMatch
| UsernameExists.

Definition is_empty (s : string) : bool := String.eqb s "".

(** The branch [if submitted:] of the login form. *)
Definition login_submitted (username password : string) (users : list User.t)
    (s : SessionState) : Message * SessionState :=
  if negb (is_empty username) && negb (is_empty password) then
    match DatabaseUsers.authenticate_user username password users with
    | Some user => (LoggedIn, login_user user s)
    | None => (InvalidCredentials, s)
    end
  else (MissingCredentials, s).

(** The branch [if signup_submitted:] of the sign-up form. *)
Definition signup_submitted (now : Z)
    (new_username new_email new_password confirm_password : string)
    (users : list User.t) : Message * list User.t :=
  if is_empty new_username || is_empty new_password then
    (CredentialsRequired, users)
  else if Z.of_nat (String.length new_username) <? 3 then
    (UsernameTooShort, users)
  else if Z.of_nat (String.length new_password) <? 6 then
    (PasswordTooShort, users)
  else if negb (String.eqb new_password confirm_password) then
    (PasswordsDoNotMatch, users)
  else
    match DatabaseUsers.get_user_by_username new_username users with
    | Some _ => (UsernameExists, users)
    | None =>
        (AccountCreated,
         snd (DatabaseUsers.create_user now new_username new_password CUSTOMER
                new_email users))
    end.

End Auth.

(** ** util.py: calculate_order_metrics

    The floats of the totals are kept abstract: [zero] is the [0] that
    [sum] starts from, [add] the addition and [times] the product of a
    quantity and a unit price.  So is the calendar: [date] is the day of a
    datetime and [week] the [timedelta(days=7)]; [now] is [datetime.now()]. *)

Section Util.
Context {float : Type}.
Variables (zero : float) (add : float -> float -> float)
  (times : Z -> Q -> float).
Variables (date : Z -> Z) (week : Z).

Definition total_price (self : OrderItem.t) : float :=
  times (OrderItem.quantity self) (OrderItem.unit_price self).

Definition total_amount (self : Order.t) : float :=
  fold_left add (map total_price (Order.items self)) zero.

Definition status_is (status : OrderStatus) (o : Order.t) : bool :=
  match Order.status o, status with
  | PLACED, PLACED | PAID, PAID | DELIVERED, DELIVERED | CANCELLED, CANCELLED => true
  | _, _ => false
  end.

Record Metrics : Type := mkMetrics {
  total_orders : Z;
  today_orders : Z;
  week_orders : Z;
  placed_orders : Z;
  paid_orders : Z;
  delivered_orders : Z;
  cancelled_orders : Z;
  total_revenue : float;
  pending_revenue : float
}.

Definition len {A : Type} (l : list A) : Z := Z.of_nat (List.length l).

Definition calculate_order_metrics (now : Z) (orders : list Order.t) : Metrics :=
  let today := date now in
  let week_ago := now - week in
  let today_orders := filter (fun o => date (Order.created_at o) =? today) orders in
  let week_orders := filter (fun o => Order.created_at o >=? week_ago) orders in
  mkMetrics
    (len orders)
    (len today_orders)
    (len week_orders)
    (len (filter (status_is PLACED) orders))
    (len (filter (status_is PAID) orders))
    (len (filter (status_is DELIVERED) orders))
    (len (filter (status_is CANCELLED) orders))
    (fold_left add
       (map total_amount
          (filter (fun o => status_is PAID o || status_is DELIVERED o) orders))
       zero)
    (fold_left add
       (map total_amount (filter (status_is PLACED) orders)) zero).
End Util.



(** * Vocabulary of the specification *)

(** ** Observations on the tables *)

Definition find_order (order_id : Z) (d : Tables) : option OrdersRow.t :=
  fetchone (Database.order_has_id order_id) (orders d).

Definition items_of (order_id : Z) (d : Tables) : list OrderItemsRow.t :=
  filter (Database.item_of_order order_id) (order_items d).

(** The invariant of a product row: [0 <= reserved_quantity <= stock_quantity]. *)
Definition ledger_ok (p : Product.t) : Prop :=
  0 <= Product.reserved_quantity p <= Product.stock_quantity p.

(** The quantity of [product_id] in the items of an order, as passed to
    [create_order] and as stored in [order_items]. *)
Definition ordered (product_id : Z) (items : list OrderItem.t) : Z :=
  fold_right
    (fun item acc =>
       if OrderItem.product_id item =? product_id
       then OrderItem.quantity item + acc else acc)
    0 items.

Definition ordered_rows (product_id : Z) (item_rows : list OrderItemsRow.t) : Z :=
  fold_right
    (fun r acc =>
       if OrderItemsRow.product_id r =? product_id
       then OrderItemsRow.quantity r + acc else acc)
    0 item_rows.

(** Each element of a list together with the elements before it: a loop
    meets an item after it has processed the earlier ones. *)
Fixpoint with_earlier {A : Type} (l : list A) : list (list A * A) :=
  match l with
  | [] => []
  | x :: rest =>
      ([], x) :: map (fun ey => (x :: fst ey, snd ey)) (with_earlier rest)
  end.

(** An item of [create_order] reserves when its product exists and what is
    available, less what the earlier items of the same call took, covers
    its quantity. *)
Definition can_reserve (d : Tables) (earlier : list OrderItem.t)
    (item : OrderItem.t) : Prop :=
  match Database.get_product_by_id (OrderItem.product_id item) d with
  | Some p =>
      OrderItem.quantity item
      <= Product.available_quantity p - ordered (OrderItem.product_id item) earlier
  | None => False
  end.

Definition cannot_reserve (d : Tables) (earlier : list OrderItem.t)
    (item : OrderItem.t) : Prop :=
  match Database.get_product_by_id (OrderItem.product_id item) d with
  | Some p =>
      Product.available_quantity p - ordered (OrderItem.product_id item) earlier
      < OrderItem.quantity item
  | None => True
  end.

(** The precondition [reserved_quantity >= quantity] of a stored item, after
    the earlier items of the same order have been taken off. *)
Definition reservation_held (d : Tables) (earlier : list OrderItemsRow.t)
    (r : OrderItemsRow.t) : Prop :=
  match Database.get_product_by_id (OrderItemsRow.product_id r) d with
  | Some p =>
      OrderItemsRow.quantity r
      <= Product.reserved_quantity p
         - ordered_rows (OrderItemsRow.product_id r) earlier
  | None => False
  end.

Definition reservations_held (d : Tables) (item_rows : list OrderItemsRow.t)
    : Prop :=
  Forall (fun er => reservation_held d (fst er) (snd er)) (with_earlier item_rows).

(** The audit entry of an item: which columns it must agree on. *)
Definition documents (ty : TransactionType) (order_id : Z)
    (product_id quantity : Z) (t : InventoryTransaction.t) : Prop :=
  InventoryTransaction.product_id t = product_id
  /\ InventoryTransaction.transaction_type t = ty
  /\ InventoryTransaction.quantity t = quantity
  /\ InventoryTransaction.order_id t = Some order_id.

(** The product is missing or has less than [quantity] available: the
    test of [reserve_stock] fails. *)
Definition nothing_available (product_id quantity : Z) (d : Tables) : Prop :=
  match Database.get_product_by_id product_id d with
  | Some p => Product.available_quantity p < quantity
  | None => True
  end.

(** No row of [product_id] holds a reservation of [quantity]: the guard
    [WHERE id = %s AND reserved_quantity >= %s] matches nothing. *)
Definition nothing_reserved (product_id quantity : Z) (d : Tables) : Prop :=
  forall p, In p (products d) -> Product.id p = product_id ->
            Product.reserved_quantity p < quantity.

(** What the calls preserve: [id] is a key of [products], every product row
    satisfies [0 <= reserved_quantity <= stock_quantity], and no stored
    order item has a negative quantity. *)
Definition ledger_invariant (d : Tables) : Prop :=
  NoDup (map Product.id (products d))
  /\ Forall ledger_ok (products d)
  /\ Forall (fun r => 0 <= OrderItemsRow.quantity r) (order_items d).

(** ** The audit trail *)

Definition audit_sum (ty : TransactionType) (product_id : Z)
    (ts : list InventoryTransaction.t) : Z :=
  fold_right
    (fun t acc =>
       if TransactionType_eqb (InventoryTransaction.transaction_type t) ty
          && (InventoryTransaction.product_id t =? product_id)
       then InventoryTransaction.quantity t + acc else acc)
    0 ts.

Definition reconciled (ts : list InventoryTransaction.t) (p : Product.t) : Prop :=
  Product.stock_quantity p
  = audit_sum RESTOCK (Product.id p) ts - audit_sum SALE (Product.id p) ts
  /\ Product.reserved_quantity p
     = audit_sum RESERVE (Product.id p) ts - audit_sum RELEASE (Product.id p) ts
       - audit_sum SALE (Product.id p) ts.

(** What a transaction of a type and a quantity stands for in the ledger:
    the change of [stock_quantity] and the change of [reserved_quantity]. *)
Definition effect (ty : TransactionType) (quantity : Z) : Z * Z :=
  match ty with
  | RESTOCK => (quantity, 0)
  | RESERVE => (0, quantity)
  | RELEASE => (0, - quantity)
  | SALE => (- quantity, - quantity)
  end.

(** The invariant behind the reconciliation: [id] is a key of [products],
    every transaction is about a product of the table, every product row
    reconciles with the transactions. *)
Definition audit_invariant (d : Tables) : Prop :=
  NoDup (map Product.id (products d))
  /\ Forall
       (fun t => In (InventoryTransaction.product_id t) (map Product.id (products d)))
       (inventory_transactions d)
  /\ Forall (reconciled (inventory_transactions d)) (products d).

(** The WHERE clause [cond] matches the rows of [product_id] and no other. *)
Definition selects (cond : Product.t -> bool) (product_id : Z)
    (rows : list Product.t) : Prop :=
  forall p, In p rows -> (cond p = true <-> Product.id p = product_id).

(** ** Calls and reachable states *)

Inductive call : Type :=
| create_product_call (name description : string) (price : Q)
    (stock_quantity low_stock_threshold : Z)
| update_product_call (product_id : Z) (kwargs : Kwargs.t)
| restock_product_call (product_id quantity : Z) (user_id : option Z)
| reserve_stock_call (product_id quantity order_id : Z)
| release_stock_call (product_id quantity order_id : Z)
| sell_product_call (product_id quantity order_id : Z)
| create_order_call (customer_id : Z) (items : list OrderItem.t)
| update_order_status_call (order_id : Z) (status : OrderStatus)
    (user_id : option Z).

(** The snapshots a call commits. *)
Definition run (now : Z) (c : call) (d : Tables) : list Tables :=
  match c with
  | create_product_call name description price stock_quantity low_stock_threshold =>
      snd (Database.create_product now name description price stock_quantity
             low_stock_threshold d)
  | update_product_call product_id kwargs =>
      snd (Database.update_product now product_id kwargs d)
  | restock_product_call product_id quantity user_id =>
      snd (Database.restock_product now product_id quantity user_id d)
  | reserve_stock_call product_id quantity order_id =>
      snd (Database.reserve_stock now product_id quantity order_id d)
  | release_stock_call product_id quantity order_id =>
      snd (Database.release_stock now product_id quantity order_id d)
  | sell_product_call product_id quantity order_id =>
      snd (Database.sell_product now product_id quantity order_id d)
  | create_order_call customer_id items =>
      snd (Database.create_order now customer_id items d)
  | update_order_status_call order_id status user_id =>
      snd (Database.update_order_status now order_id status user_id d)
  end.

(** The states reached from the empty database by complete calls that
    [allowed] admits in the state they start from. *)
Inductive reachable (allowed : Tables -> Z -> call -> Prop) : Tables -> Prop :=
| reachable_empty : reachable allowed empty_tables
| reachable_call (d : Tables) (now : Z) (c : call) :
    reachable allowed d -> allowed d now c ->
    reachable allowed (final d (run now c d)).

(** The public operations of the product ledger and of the order engine:
    every call but [update_product]. *)
Definition ledger_call (_ : Tables) (_ : Z) (c : call) : Prop :=
  match c with
  | update_product_call _ _ => False
  | _ => True
  end.

(** The same operations, with quantities that are not negative where the
    ledger adds them. *)
Definition nonnegative_call (_ : Tables) (_ : Z) (c : call) : Prop :=
  match c with
  | update_product_call _ _ => False
  | create_product_call _ _ _ stock_quantity _ => 0 <= stock_quantity
  | restock_product_call _ quantity _ => 0 <= quantity
  | reserve_stock_call _ quantity _ => 0 <= quantity
  | release_stock_call _ quantity _ => 0 <= quantity
  | sell_product_call _ _ _ => True
  | create_order_call _ items => Forall (fun i => 0 <= OrderItem.quantity i) items
  | update_order_status_call _ _ _ => True
  end.

(** Every guarded UPDATE of the loop [step] over [item_rows] matches a row. *)
Fixpoint guards_match (step : Tables -> OrderItemsRow.t -> Tables)
    (item_rows : list OrderItemsRow.t) (w : Tables) : Prop :=
  match item_rows with
  | [] => True
  | r :: rest =>
      0 < rowcount
            (has_id_reserved (OrderItemsRow.product_id r) (OrderItemsRow.quantity r))
            (products w)
      /\ guards_match step rest (step w r)
  end.

(** The public operations again, where every guarded UPDATE issued by
    [update_order_status] finds its row. *)
Definition audited_call (d : Tables) (now : Z) (c : call) : Prop :=
  match c with
  | update_product_call _ _ => False
  | update_order_status_call order_id PAID user_id =>
      find_order order_id d <> None ->
      guards_match (Database.sale_item now order_id user_id) (items_of order_id d) d
  | update_order_status_call order_id CANCELLED user_id =>
      find_order order_id d <> None ->
      guards_match (Database.release_item now order_id user_id)
        (items_of order_id d) d
  | _ => True
  end.


(** ** The two loops of [update_order_status], row by row

    Both loops run a guarded UPDATE and an INSERT per item; they differ in
    the transaction type and in what is taken off [stock_quantity]: the
    quantity for a sale ([Z.opp]), nothing for a release. *)

Definition item_step (ty : TransactionType) (ds : Z -> Z) (now order_id : Z)
    (user_id : option Z) (w : Tables) (item_row : OrderItemsRow.t) : Tables :=
  let product_id := OrderItemsRow.product_id item_row in
  let quantity := OrderItemsRow.quantity item_row in
  let w1 :=
    set_products
      (update_rows (has_id_reserved product_id quantity)
         (bump (ds quantity) (- quantity) now) (products w)) w in
  set_inventory_transactions
    (insert
       (InventoryTransaction.mk
          (next_id (map InventoryTransaction.id (inventory_transactions w1)))
          product_id ty quantity (Some order_id) user_id "" now)
       (inventory_transactions w1)) w1.

(** What one round does to one product row. *)
Definition take_row (ds : Z -> Z) (now : Z) (p : Product.t)
    (r : OrderItemsRow.t) : Product.t :=
  if has_id_reserved (OrderItemsRow.product_id r) (OrderItemsRow.quantity r) p
  then bump (ds (OrderItemsRow.quantity r)) (- OrderItemsRow.quantity r) now p
  else p.

(** What one round of the loop of [create_order] does to one product row. *)
Definition reserve_row (now : Z) (p : Product.t) (item : OrderItem.t)
    : Product.t :=
  if has_id (OrderItem.product_id item) p
  then bump 0 (OrderItem.quantity item) now p
  else p.

Definition row_of_item (order_id : Z) (item : OrderItem.t) : OrderItemsRow.t :=
  OrderItemsRow.mk order_id (OrderItem.product_id item)
    (OrderItem.quantity item) (OrderItem.unit_price item).

(** ** Further vocabulary: one mutation of the ledger

    The tables after an UPDATE of the product rows that [cond] matches and
    the INSERT of the audit entry [t]. *)
Definition moved (cond : Product.t -> bool) (ds dr now : Z)
    (t : InventoryTransaction.t) (d : Tables) : Tables :=
  mkTables (update_rows cond (bump ds dr now) (products d)) (orders d)
    (order_items d) (insert t (inventory_transactions d)).

(** The audit entry that a method writes on the tables [d]. *)
Definition entry (now product_id : Z) (ty : TransactionType) (quantity : Z)
    (order_id user_id : option Z) (notes : string) (d : Tables)
    : InventoryTransaction.t :=
  InventoryTransaction.mk
    (next_id (map InventoryTransaction.id (inventory_transactions d)))
    product_id ty quantity order_id user_id notes now.

(** The stock and the reservations of a product, as read by id. *)
Definition quantities (product_id : Z) (d : Tables) : option (Z * Z) :=
  option_map (fun p => (Product.stock_quantity p, Product.reserved_quantity p))
    (Database.get_product_by_id product_id d).

(** Every order item belongs to an order of the table: the foreign key of
    [order_items]. *)
Definition items_have_orders (d : Tables) : Prop :=
  Forall (fun r => In (OrderItemsRow.order_id r) (map OrdersRow.id (orders d)))
    (order_items d).

(** ** Further vocabulary: histories *)

(** A sequence of calls, each with the time it is made at, run one after
    the other from [d]. *)
Definition run_all (calls : list (Z * call)) (d : Tables) : Tables :=
  fold_left (fun d nc => final d (run (fst nc) (snd nc) d)) calls d.



Definition order_key (r : OrdersRow.t) : Z * Z * Z :=
  (OrdersRow.id r, OrdersRow.customer_id r, OrdersRow.created_at r).


(** An order row carries the timestamp of the status it shows. *)
Definition stamped (r : OrdersRow.t) : Prop :=
  (OrdersRow.status r = PAID -> OrdersRow.paid_at r <> None)
  /\ (OrdersRow.status r = DELIVERED -> OrdersRow.delivered_at r <> None).

(** ** Further vocabulary: updates that leave the quantities alone *)



(** Ascending and descending in an integer column. *)
Definition ascending {row : Type} (key : row -> Z) (rows : list row) : Prop :=
  StronglySorted (fun a b => key a <= key b) rows.

Definition descending {row : Type} (key : row -> Z) (rows : list row) : Prop :=
  StronglySorted (fun a b => key b <= key a) rows.

(** ** Further vocabulary: a browser session *)

(** What happens to a session: a page run calls [initialize_auth], a user
    is logged in, the user logs out. *)
Inductive session_event : Type :=
| Initialized
| LoggedInAs (user : User.t)
| LoggedOut.

Definition session_step (s : Auth.SessionState) (e : session_event)
    : Auth.SessionState :=
  match e with
  | Initialized => Auth.initialize_auth s
  | LoggedInAs user => Auth.login_user user s
  | LoggedOut => Auth.logout_user s
  end.

Definition session_after (events : list session_event) : Auth.SessionState :=
  fold_left session_step events Auth.new_session.

(** The user of the last login, unless a logout came after it. *)
Definition signed_in (events : list session_event) : option User.t :=
  fold_left
    (fun who e =>
       match e with
       | Initialized => who
       | LoggedInAs user => Some user
       | LoggedOut => None
       end)
    events None.

(** ** The states of the examples *)

Definition one : Q := Qmake 1 1.

(** One product: stock 10, nothing reserved, low-stock threshold 5. *)
Definition shop : Tables :=
  final empty_tables
    (snd (Database.create_product 100 "P" "" one 10 5 empty_tables)).

(** Order 1 for seven units of the product. *)
Definition shop_placed : Tables :=
  final shop (snd (Database.create_order 101 42 [OrderItem.mk 1 7 one] shop)).

Definition shop_paid : Tables :=
  final shop_placed (snd (Database.update_order_status 103 1 PAID None shop_placed)).

(** Orders 1 and 2 for three units each, then order 1 cancelled. *)
Definition two_orders : Tables :=
  let d1 := final shop (snd (Database.create_order 101 42 [OrderItem.mk 1 3 one] shop)) in
  final d1 (snd (Database.create_order 102 43 [OrderItem.mk 1 3 one] d1)).

Definition first_cancelled : Tables :=
  final two_orders (snd (Database.update_order_status 103 1 CANCELLED None two_orders)).

(** A restock of minus fifteen units on the shop. *)
Definition shop_overdrawn : Tables :=
  final shop (run 101 (restock_product_call 1 (-15) None) shop).

(** [update_product(1, stock_quantity=99)] on the shop. *)
Definition shop_rewritten : Tables :=
  final shop
    (run 101
       (update_product_call 1 (Kwargs.mk None None None (Some 99) None None))
       shop).


(** Order 1 cancelled a second time: the reservation of order 2 is gone
    while order 2 is still PLACED. *)
Definition first_cancelled_twice : Tables :=
  final first_cancelled
    (snd (Database.update_order_status 104 1 CANCELLED None first_cancelled)).


(** * Facts on the SQL statements *)

Section SqlFacts.
Context {row : Type}.
Implicit Types (cond key : row -> bool) (set : row -> row) (rows : list row).

Lemma rowcount_nonneg cond rows : 0 <= rowcount cond rows.
Proof. unfold rowcount. lia. Qed.

Lemma rowcount_cons cond r rows :
  rowcount cond (r :: rows) = (if cond r then 1 else 0) + rowcount cond rows.
Proof.
  unfold rowcount. simpl. destruct (cond r); simpl List.length; lia.
Qed.

Lemma rowcount_positive cond rows :
  0 < rowcount cond rows <-> exists r, In r rows /\ cond r = true.
Proof.
  induction rows as [|r rows IH].
  - split; [unfold rowcount; simpl; lia | intros (r & [] & _)].
  - rewrite rowcount_cons. pose proof (rowcount_nonneg cond rows) as Hn.
    destruct (cond r) eqn:Hr.
    + split; [intros _; exists r; simpl; auto | lia].
    + split.
      * intros H. destruct IH as [IH _].
        destruct IH as (r' & Hin & Hc); [lia|]. exists r'. simpl. auto.
      * intros (r' & [<- | Hin] & Hc); [congruence|].
        destruct IH as [_ IH]. specialize (IH (ex_intro _ r' (conj Hin Hc))). lia.
Qed.

Lemma rowcount_fetchone cond rows :
  (rowcount cond rows >? 0)
  = match fetchone cond rows with Some _ => true | None => false end.
Proof.
  induction rows as [|r rows IH]; [reflexivity|].
  rewrite rowcount_cons. unfold fetchone in *. simpl.
  pose proof (rowcount_nonneg cond rows).
  destruct (cond r); [apply Z.gtb_lt; lia | exact IH].
Qed.

Lemma rowcount_zero cond rows :
  (forall r, In r rows -> cond r = false) -> (rowcount cond rows >? 0) = false.
Proof.
  intros H. destruct (rowcount cond rows >? 0) eqn:E; [|reflexivity].
  apply Z.gtb_lt, rowcount_positive in E. destruct E as (r & Hin & Hc).
  rewrite (H r Hin) in Hc. discriminate.
Qed.

Lemma update_rows_unmatched cond set rows :
  (forall r, In r rows -> cond r = false) -> update_rows cond set rows = rows.
Proof.
  intros H. unfold update_rows. rewrite <- (map_id rows) at 2.
  apply map_ext_in. intros r Hin. now rewrite (H r Hin).
Qed.

Lemma fetchone_none cond rows :
  fetchone cond rows = None -> forall r, In r rows -> cond r = false.
Proof. intros H r Hin. exact (find_none cond rows H r Hin). Qed.

(** A lookup by a key that the assignment leaves alone finds the same row,
    updated when the UPDATE matched it. *)
Lemma fetchone_update_rows key cond set rows :
  (forall r, key (set r) = key r) ->
  fetchone key (update_rows cond set rows)
  = option_map (fun r => if cond r then set r else r) (fetchone key rows).
Proof.
  intros Hkey. unfold fetchone, update_rows.
  induction rows as [|r rows IH]; [reflexivity|]. simpl.
  replace (key (if cond r then set r else r)) with (key r)
    by (destruct (cond r); [now rewrite Hkey | reflexivity]).
  destruct (key r); [reflexivity | exact IH].
Qed.
End SqlFacts.

Lemma tables_eta (d : Tables) :
  mkTables (products d) (orders d) (order_items d) (inventory_transactions d) = d.
Proof. now destruct d. Qed.

Lemma has_id_bump product_id ds dr now p :
  has_id product_id (bump ds dr now p) = has_id product_id p.
Proof. reflexivity. Qed.

Lemma has_id_true product_id p :
  has_id product_id p = true <-> Product.id p = product_id.
Proof. unfold has_id. apply Z.eqb_eq. Qed.

Lemma has_id_reserved_true product_id quantity p :
  has_id_reserved product_id quantity p = true
  <-> Product.id p = product_id /\ quantity <= Product.reserved_quantity p.
Proof.
  unfold has_id_reserved. rewrite andb_true_iff, Z.eqb_eq, Z.geb_le. tauto.
Qed.

Lemma nothing_reserved_unmatched product_id quantity d :
  nothing_reserved product_id quantity d ->
  forall p, In p (products d) -> has_id_reserved product_id quantity p = false.
Proof.
  intros H p Hin. destruct (has_id_reserved product_id quantity p) eqn:E; [|reflexivity].
  apply has_id_reserved_true in E. destruct E as [Hid Hq].
  specialize (H p Hin Hid). lia.
Qed.

Lemma missing_product_nothing_reserved product_id quantity d :
  Database.get_product_by_id product_id d = None ->
  nothing_reserved product_id quantity d.
Proof.
  intros H p Hin Hid.
  pose proof (fetchone_none _ _ H p Hin) as Hf.
  apply has_id_true in Hid. congruence.
Qed.

(** With [id] a key of [products], the row [get_product_by_id] returns is the
    only one of that id. *)
Lemma get_product_by_id_unique product_id d p q :
  NoDup (map Product.id (products d)) ->
  Database.get_product_by_id product_id d = Some p ->
  In q (products d) -> Product.id q = product_id -> q = p.
Proof.
  unfold Database.get_product_by_id, fetchone.
  induction (products d) as [|r rows IH]; simpl; [intros _ H; discriminate|].
  intros Hnd Hf Hin Hid. inversion Hnd as [|? ? Hnotin Hnd']; subst.
  destruct (has_id (Product.id q) r) eqn:Hr.
  - injection Hf as <-. apply has_id_true in Hr.
    destruct Hin as [-> | Hin]; [reflexivity|].
    exfalso. apply Hnotin. rewrite Hr. now apply in_map.
  - destruct Hin as [-> | Hin].
    + unfold has_id in Hr. rewrite Z.eqb_refl in Hr. discriminate.
    + now apply IH.
Qed.


(** * The product ledger *)

Lemma fetchone_has_id product_id rows p :
  fetchone (has_id product_id) rows = Some p -> Product.id p = product_id.
Proof.
  intros H. apply find_some in H. now apply has_id_true.
Qed.

(** A product other than the one an UPDATE names is read back unchanged. *)
Lemma get_other_product other product_id cond set d :
  other <> product_id ->
  (forall p, has_id other (set p) = has_id other p) ->
  (forall p, cond p = true -> Product.id p = product_id) ->
  fetchone (has_id other) (update_rows cond set (products d))
  = Database.get_product_by_id other d.
Proof.
  intros Hne Hset Hcond. rewrite fetchone_update_rows by exact Hset.
  unfold Database.get_product_by_id.
  destruct (fetchone (has_id other) (products d)) as [p|] eqn:E; [|reflexivity].
  simpl. destruct (cond p) eqn:Hc; [|reflexivity].
  apply Hcond in Hc. apply fetchone_has_id in E. congruence.
Qed.

(** C4, as amended: [restock_product] looks at the product only.  Whatever
    the quantity, zero and negative ones included, it returns [True] when the
    product exists, adds the quantity to [stock_quantity], touches no other
    product and writes one RESTOCK transaction of that quantity; it returns
    [False] and changes nothing when the product does not exist. *)
Theorem restock_product_any_quantity now product_id quantity user_id d :
  match Database.get_product_by_id product_id d with
  | None =>
      Database.restock_product now product_id quantity user_id d = (false, [d])
  | Some p =>
      exists d1 d2 t,
        Database.restock_product now product_id quantity user_id d
        = (true, [d1; d2])
        /\ (exists p', Database.get_product_by_id product_id d2 = Some p'
             /\ Product.stock_quantity p' = Product.stock_quantity p + quantity
             /\ Product.reserved_quantity p' = Product.reserved_quantity p)
        /\ (forall other, other <> product_id ->
              Database.get_product_by_id other d2
              = Database.get_product_by_id other d)
        /\ inventory_transactions d2 = inventory_transactions d ++ [t]
        /\ InventoryTransaction.transaction_type t = RESTOCK
        /\ InventoryTransaction.product_id t = product_id
        /\ InventoryTransaction.quantity t = quantity
        /\ InventoryTransaction.user_id t = user_id
  end.
Proof.
  unfold Database.restock_product, Database.get_product_by_id.
  rewrite rowcount_fetchone.
  destruct (fetchone (has_id product_id) (products d)) as [p|] eqn:E.
  - simpl. eexists _, _, _. split; [reflexivity|].
    split; [|split; [|repeat split]].
    + exists (bump quantity 0 now p). simpl.
      rewrite fetchone_update_rows by (intros; apply (has_id_bump product_id)).
      rewrite E. simpl. apply find_some in E. destruct E as [_ ->].
      repeat split. simpl. lia.
    + intros other Hne. simpl.
      refine (get_other_product other product_id _ _ d Hne _ _);
        [reflexivity | intros q Hq; now apply has_id_true].
  - rewrite update_rows_unmatched by (now apply fetchone_none).
    unfold set_products. now rewrite tables_eta.
Qed.

(** C4, the claim as stated fails: a restock of -5 is not rejected, it takes
    five units off the stock. *)
Lemma restock_product_accepts_negative :
  Database.restock_product 101 1 (-5) None shop
  = (true, snd (Database.restock_product 101 1 (-5) None shop))
  /\ option_map Product.stock_quantity (Database.get_product_by_id 1 shop)
     = Some 10
  /\ option_map Product.stock_quantity
       (Database.get_product_by_id 1
          (final shop (snd (Database.restock_product 101 1 (-5) None shop))))
     = Some 5
  /\ map InventoryTransaction.quantity
       (inventory_transactions
          (final shop (snd (Database.restock_product 101 1 (-5) None shop))))
     = [10; -5].
Proof. repeat split. Qed.

(** C5, the code at [reserve_stock(1, 7, 1)] on the shop of one product:
    two snapshots are committed.  The first holds the reservation and no
    RESERVE entry, the entry comes with the second, committed by
    [create_inventory_transaction] on a connection of its own. *)
Theorem reserve_stock_commits_twice :
  exists d1 d2,
    Database.reserve_stock 101 1 7 1 shop = (true, [d1; d2])
    /\ option_map Product.reserved_quantity (Database.get_product_by_id 1 d1)
       = Some 7
    /\ inventory_transactions d1 = inventory_transactions shop
    /\ audit_sum RESERVE 1 (inventory_transactions d1) = 0
    /\ audit_sum RESERVE 1 (inventory_transactions d2) = 7.
Proof. eexists _, _. repeat split. Qed.

(** C10: the three primitives answer with a bare [False], and commit no
    change, when the product is missing as well as when the quantity test
    fails: no row available for [reserve_stock], no row of the product with
    [reserved_quantity >= quantity] for [release_stock] and [sell_product].
    A missing product is an instance of the latter, and so is, [id] being a
    key, a product whose [reserved_quantity] is below the quantity. *)
Theorem ledger_refusals_are_false now product_id quantity order_id d :
  (nothing_available product_id quantity d ->
   Database.reserve_stock now product_id quantity order_id d = (false, []))
  /\ (nothing_reserved product_id quantity d ->
      Database.release_stock now product_id quantity order_id d = (false, [d])
      /\ Database.sell_product now product_id quantity order_id d = (false, [d]))
  /\ (Database.get_product_by_id product_id d = None ->
      nothing_available product_id quantity d
      /\ nothing_reserved product_id quantity d)
  /\ (forall p,
        NoDup (map Product.id (products d)) ->
        Database.get_product_by_id product_id d = Some p ->
        Product.reserved_quantity p < quantity ->
        nothing_reserved product_id quantity d).
Proof.
  repeat split.
  - unfold nothing_available, Database.reserve_stock, Database.get_product_by_id.
    destruct (fetchone (has_id product_id) (products d)) as [p|];
      [|reflexivity].
    unfold Product.available_quantity. intros H.
    replace (_ >=? quantity) with false; [reflexivity|].
    symmetry. rewrite Z.geb_leb. apply Z.leb_gt. lia.
  - unfold Database.release_stock.
    rewrite rowcount_zero by (now apply nothing_reserved_unmatched).
    rewrite update_rows_unmatched by (now apply nothing_reserved_unmatched).
    unfold set_products. now rewrite tables_eta.
  - unfold Database.sell_product.
    rewrite rowcount_zero by (now apply nothing_reserved_unmatched).
    rewrite update_rows_unmatched by (now apply nothing_reserved_unmatched).
    unfold set_products. now rewrite tables_eta.
  - unfold nothing_available. now rewrite H.
  - now apply missing_product_nothing_reserved.
  - intros p Hnd Hget Hlt q Hin Hid.
    now rewrite (get_product_by_id_unique product_id d p q Hnd Hget Hin Hid).
Qed.

(** C10 at work: five units asked of the three that are left, and eight
    released or sold of the seven that are reserved. *)
Lemma ledger_refusals_are_false_witness :
  Database.reserve_stock 102 1 5 2 shop_placed = (false, [])
  /\ Database.release_stock 102 1 8 1 shop_placed = (false, [shop_placed])
  /\ Database.sell_product 102 1 8 1 shop_placed = (false, [shop_placed])
  /\ Database.reserve_stock 102 9 1 2 shop_placed = (false, []).
Proof.
  pose proof (ledger_refusals_are_false 102 1 5 2 shop_placed) as (Hr & _).
  pose proof (ledger_refusals_are_false 102 1 8 1 shop_placed) as (_ & Hs & _ & Hu).
  pose proof (ledger_refusals_are_false 102 9 1 2 shop_placed) as (Hm & _ & Hn & _).
  assert (Hnothing : nothing_reserved 1 8 shop_placed).
  { apply (Hu (Product.mk 1 "P" "" one 10 7 5 100 101)).
    - repeat constructor. simpl. tauto.
    - reflexivity.
    - simpl. lia. }
  split; [apply Hr; vm_compute; reflexivity|].
  split; [apply (proj1 (Hs Hnothing))|].
  split; [apply (proj2 (Hs Hnothing))|].
  apply Hm. apply (proj1 (Hn eq_refl)).
Defined.


(** * The order engine *)

Lemma fetchone_map {row : Type} (key : row -> bool) (g : row -> row) rows :
  (forall r, key (g r) = key r) ->
  fetchone key (map g rows) = option_map g (fetchone key rows).
Proof.
  intros Hkey. unfold fetchone. induction rows as [|r rows IH]; [reflexivity|].
  simpl. rewrite Hkey. destruct (key r); [reflexivity | exact IH].
Qed.

Lemma sale_item_step : Database.sale_item = item_step SALE Z.opp.
Proof. reflexivity. Qed.

Lemma release_item_step : Database.release_item = item_step RELEASE (fun _ => 0).
Proof. reflexivity. Qed.

(** ** One product row through a loop *)

Lemma take_row_id ds now p r : Product.id (take_row ds now p r) = Product.id p.
Proof. unfold take_row. now destruct (has_id_reserved _ _ p). Qed.

Lemma take_rows_id ds now rows p :
  Product.id (fold_left (take_row ds now) rows p) = Product.id p.
Proof.
  revert p. induction rows as [|r rows IH]; intros p; [reflexivity|].
  simpl. now rewrite IH, take_row_id.
Qed.

Lemma ordered_rows_cons product_id r rows :
  ordered_rows product_id (r :: rows)
  = (if OrderItemsRow.product_id r =? product_id
     then OrderItemsRow.quantity r else 0)
    + ordered_rows product_id rows.
Proof. simpl. destruct (_ =? _); lia. Qed.

Lemma Forall_with_earlier_cons {A : Type} (P : list A -> A -> Prop) x l :
  Forall (fun ey => P (fst ey) (snd ey)) (with_earlier (x :: l))
  <-> P [] x /\ Forall (fun ey => P (x :: fst ey) (snd ey)) (with_earlier l).
Proof.
  simpl. rewrite Forall_cons_iff, Forall_map. simpl. tauto.
Qed.

(** When every item of the product finds its reservation, the loop takes
    the whole order off the row: [k] times the ordered quantity off the
    stock ([ds q = k * q]) and the ordered quantity off the reservations. *)
Lemma take_rows_held ds k now rows p :
  (forall q, ds q = k * q) ->
  Forall
    (fun er =>
       OrderItemsRow.product_id (snd er) = Product.id p ->
       OrderItemsRow.quantity (snd er)
       <= Product.reserved_quantity p - ordered_rows (Product.id p) (fst er))
    (with_earlier rows) ->
  Product.stock_quantity (fold_left (take_row ds now) rows p)
  = Product.stock_quantity p + k * ordered_rows (Product.id p) rows
  /\ Product.reserved_quantity (fold_left (take_row ds now) rows p)
     = Product.reserved_quantity p - ordered_rows (Product.id p) rows.
Proof.
  intros Hds. revert p. induction rows as [|r rows IH]; intros p H.
  - simpl. lia.
  - apply (Forall_with_earlier_cons
             (fun e y =>
                OrderItemsRow.product_id y = Product.id p ->
                OrderItemsRow.quantity y
                <= Product.reserved_quantity p - ordered_rows (Product.id p) e))
      in H.
    destruct H as [Hhead Htail]. simpl fold_left.
    specialize (IH (take_row ds now p r)). rewrite take_row_id in IH.
    rewrite ordered_rows_cons. unfold take_row in *.
    destruct (has_id_reserved _ _ p) eqn:Hg.
    + apply has_id_reserved_true in Hg. destruct Hg as [Hid Hq].
      rewrite <- Hid, Z.eqb_refl.
      destruct IH as [IHs IHr].
      * eapply Forall_impl; [|exact Htail]. intros [e y]; cbn [fst snd]. intros Hy Hpid.
        specialize (Hy Hpid). rewrite ordered_rows_cons in Hy.
        rewrite <- Hid, Z.eqb_refl in Hy. simpl. lia.
      * rewrite IHs, IHr. simpl. rewrite Hds. lia.
    + assert (Hne : OrderItemsRow.product_id r <> Product.id p).
      { intros Hid. specialize (Hhead Hid). simpl in Hhead.
        assert (has_id_reserved (OrderItemsRow.product_id r)
                  (OrderItemsRow.quantity r) p = true) as Ht
          by (apply has_id_reserved_true; split; [auto | lia]).
        congruence. }
      apply Z.eqb_neq in Hne. rewrite Hne.
      destruct IH as [IHs IHr].
      * eapply Forall_impl; [|exact Htail]. intros [e y]; cbn [fst snd]. intros Hy Hpid.
        specialize (Hy Hpid). rewrite ordered_rows_cons, Hne in Hy. lia.
      * rewrite IHs, IHr. lia.
Qed.

(** A release never touches the stock. *)
Lemma take_rows_release_stock now rows p :
  Product.stock_quantity (fold_left (take_row (fun _ => 0) now) rows p)
  = Product.stock_quantity p.
Proof.
  revert p. induction rows as [|r rows IH]; intros p; [reflexivity|].
  simpl. rewrite IH. unfold take_row.
  destruct (has_id_reserved _ _ p); simpl; lia.
Qed.

(** ** The tables through a loop *)

Section ItemLoop.
Variables (ty : TransactionType) (ds : Z -> Z) (now order_id : Z)
  (user_id : option Z).

Lemma loop_orders rows w :
  orders (fold_left (item_step ty ds now order_id user_id) rows w) = orders w.
Proof.
  revert w. induction rows as [|r rows IH]; intros w; [reflexivity|].
  simpl. now rewrite IH.
Qed.

Lemma loop_order_items rows w :
  order_items (fold_left (item_step ty ds now order_id user_id) rows w)
  = order_items w.
Proof.
  revert w. induction rows as [|r rows IH]; intros w; [reflexivity|].
  simpl. now rewrite IH.
Qed.

Lemma loop_products rows w :
  products (fold_left (item_step ty ds now order_id user_id) rows w)
  = map (fun p => fold_left (take_row ds now) rows p) (products w).
Proof.
  revert w. induction rows as [|r rows IH]; intros w.
  - simpl. now rewrite map_id.
  - simpl fold_left at 1. rewrite IH. simpl products.
    unfold update_rows. rewrite map_map. reflexivity.
Qed.

Lemma loop_transactions rows w :
  exists entries,
    inventory_transactions (fold_left (item_step ty ds now order_id user_id) rows w)
    = inventory_transactions w ++ entries
    /\ Forall2
         (fun r t =>
            documents ty order_id (OrderItemsRow.product_id r)
              (OrderItemsRow.quantity r) t
            /\ InventoryTransaction.user_id t = user_id)
         rows entries.
Proof.
  revert w. induction rows as [|r rows IH]; intros w.
  - exists []. simpl. rewrite app_nil_r. auto.
  - simpl fold_left. destruct (IH (item_step ty ds now order_id user_id w r))
      as (entries & Heq & Hall).
    eexists (_ :: entries). split.
    + rewrite Heq. simpl. unfold insert. rewrite <- app_assoc. reflexivity.
    + constructor; [|exact Hall]. unfold documents. simpl. auto.
Qed.
End ItemLoop.

(** ** update_order_status *)

Lemma find_order_set_status order_id status now os row :
  fetchone (Database.order_has_id order_id) os = Some row ->
  fetchone (Database.order_has_id order_id)
    (update_rows (Database.order_has_id order_id) (Database.set_status status now) os)
  = Some (Database.set_status status now row).
Proof.
  intros H. rewrite fetchone_update_rows by reflexivity. rewrite H. simpl.
  apply find_some in H. now destruct H as [_ ->].
Qed.

(** An existing order: the call commits once, whatever the status asked
    for and whatever the order's own. *)
Lemma update_order_status_found now order_id status user_id d order_row :
  find_order order_id d = Some order_row ->
  exists w,
    w = match status with
        | PAID =>
            fold_left (item_step SALE Z.opp now order_id user_id)
              (items_of order_id d) d
        | CANCELLED =>
            fold_left (item_step RELEASE (fun _ => 0) now order_id user_id)
              (items_of order_id d) d
        | _ => d
        end
    /\ orders w = orders d
    /\ Database.update_order_status now order_id status user_id d
       = (true,
          [set_orders
             (update_rows (Database.order_has_id order_id)
                (Database.set_status status now) (orders d)) w])
    /\ find_order order_id
         (set_orders
            (update_rows (Database.order_has_id order_id)
               (Database.set_status status now) (orders d)) w)
       = Some (Database.set_status status now order_row).
Proof.
  unfold find_order, items_of, Database.update_order_status. intros E.
  rewrite E, sale_item_step, release_item_step. cbv zeta.
  eexists. split; [reflexivity|].
  match goal with |- orders ?w = _ /\ _ => assert (Hw : orders w = orders d) end.
  { destruct status; try reflexivity; apply loop_orders. }
  split; [exact Hw|]. split.
  - now rewrite rowcount_fetchone, Hw, E.
  - simpl. now apply find_order_set_status.
Qed.

(** C1, as amended: [update_order_status] never reads the status the order
    has.  Asked for any status, legal successor or not, it stores it on an
    existing order and returns [True], provided, for PAID and CANCELLED,
    that every item finds its reservation; it returns [False], committing
    nothing, when no order has the id. *)
Theorem update_order_status_any_transition now order_id status user_id d :
  (find_order order_id d = None ->
   Database.update_order_status now order_id status user_id d = (false, []))
  /\ (forall order_row,
        find_order order_id d = Some order_row ->
        match status with
        | PAID | CANCELLED => reservations_held d (items_of order_id d)
        | _ => True
        end ->
        exists d',
          Database.update_order_status now order_id status user_id d
          = (true, [d'])
          /\ find_order order_id d'
             = Some (Database.set_status status now order_row)
          /\ OrdersRow.status (Database.set_status status now order_row)
             = status).
Proof.
  split.
  - unfold find_order, Database.update_order_status. now intros ->.
  - intros order_row Hfind _.
    destruct (update_order_status_found now order_id status user_id d order_row
                Hfind) as (w & _ & _ & Hrun & Hrow).
    eexists. split; [exact Hrun|]. split; [exact Hrow | reflexivity].
Qed.

(** C1 at work: order 1 is CANCELLED, the three units reserved for order 2
    cover its item, and it becomes PAID. *)
Lemma update_order_status_any_transition_witness :
  option_map OrdersRow.status (find_order 1 first_cancelled) = Some CANCELLED
  /\ exists d',
       Database.update_order_status 104 1 PAID None first_cancelled = (true, [d'])
       /\ option_map OrdersRow.status (find_order 1 d') = Some PAID.
Proof.
  split; [reflexivity|].
  destruct (proj2 (update_order_status_any_transition 104 1 PAID None
                     first_cancelled)
              (OrdersRow.mk 1 42 CANCELLED 101 103 None None) eq_refl)
    as (d' & Hrun & Hrow & _).
  - repeat constructor. vm_compute. discriminate.
  - exists d'. split; [exact Hrun|]. now rewrite Hrow.
Defined.

(** C1, the claim as stated fails: order 1 is CANCELLED and is asked to
    become PAID.  The call returns [True], the order is PAID, three units
    leave the stock and the transaction log grows by a SALE. *)
Lemma cancelled_order_becomes_paid :
  option_map OrdersRow.status (find_order 1 first_cancelled) = Some CANCELLED
  /\ fst (Database.update_order_status 104 1 PAID None first_cancelled) = true
  /\ option_map OrdersRow.status
       (find_order 1
          (final first_cancelled
             (snd (Database.update_order_status 104 1 PAID None first_cancelled))))
     = Some PAID
  /\ option_map Product.stock_quantity
       (Database.get_product_by_id 1 first_cancelled) = Some 10
  /\ option_map Product.stock_quantity
       (Database.get_product_by_id 1
          (final first_cancelled
             (snd (Database.update_order_status 104 1 PAID None first_cancelled))))
     = Some 7
  /\ audit_sum SALE 1 (inventory_transactions first_cancelled) = 0
  /\ audit_sum SALE 1
       (inventory_transactions
          (final first_cancelled
             (snd (Database.update_order_status 104 1 PAID None first_cancelled))))
     = 3.
Proof. repeat split. Qed.

(** A product read before and after a loop whose items all find their
    reservation. *)
Lemma loop_held ty ds k now order_id user_id rows d product_id p :
  (forall q, ds q = k * q) ->
  reservations_held d rows ->
  Database.get_product_by_id product_id d = Some p ->
  exists p',
    Database.get_product_by_id product_id
      (fold_left (item_step ty ds now order_id user_id) rows d) = Some p'
    /\ Product.stock_quantity p'
       = Product.stock_quantity p + k * ordered_rows product_id rows
    /\ Product.reserved_quantity p'
       = Product.reserved_quantity p - ordered_rows product_id rows.
Proof.
  intros Hds Hheld Hget. unfold Database.get_product_by_id in *.
  rewrite loop_products.
  rewrite fetchone_map by (intros r; unfold has_id; now rewrite take_rows_id).
  rewrite Hget. simpl. eexists. split; [reflexivity|].
  pose proof (fetchone_has_id _ _ _ Hget) as Hid. rewrite <- Hid.
  apply (take_rows_held ds k now rows p Hds).
  eapply Forall_impl; [|exact Hheld]. intros [e y]; cbn [fst snd].
  unfold reservation_held, Database.get_product_by_id. intros Hy Hpid.
  rewrite Hpid, Hid, Hget in Hy. rewrite Hid. exact Hy.
Qed.

(** A product read before and after the loop of releases: the stock is the
    same whether or not the items find their reservation. *)
Lemma loop_release_stock now order_id user_id rows d product_id p :
  Database.get_product_by_id product_id d = Some p ->
  exists p',
    Database.get_product_by_id product_id
      (fold_left (item_step RELEASE (fun _ => 0) now order_id user_id) rows d)
    = Some p'
    /\ Product.stock_quantity p' = Product.stock_quantity p.
Proof.
  intros Hget. unfold Database.get_product_by_id in *.
  rewrite loop_products.
  rewrite fetchone_map by (intros r; unfold has_id; now rewrite take_rows_id).
  rewrite Hget. simpl. eexists. split; [reflexivity|].
  apply take_rows_release_stock.
Qed.

(** C3, as amended: asked for PAID, [update_order_status] takes an existing
    order whatever its status.  When every item finds its reservation
    ([reserved_quantity >= quantity] at its turn), each product loses the
    ordered quantity from both [stock_quantity] and [reserved_quantity], one
    SALE entry per item is written, the order is PAID and [paid_at] is set,
    all in the one commit of the call. *)
Theorem update_order_status_paid now order_id user_id d order_row :
  find_order order_id d = Some order_row ->
  reservations_held d (items_of order_id d) ->
  exists d' sales,
    Database.update_order_status now order_id PAID user_id d = (true, [d'])
    /\ (exists row',
          find_order order_id d' = Some row'
          /\ OrdersRow.status row' = PAID
          /\ OrdersRow.paid_at row' = Some now)
    /\ (forall product_id p,
          Database.get_product_by_id product_id d = Some p ->
          exists p',
            Database.get_product_by_id product_id d' = Some p'
            /\ Product.stock_quantity p'
               = Product.stock_quantity p
                 - ordered_rows product_id (items_of order_id d)
            /\ Product.reserved_quantity p'
               = Product.reserved_quantity p
                 - ordered_rows product_id (items_of order_id d))
    /\ inventory_transactions d' = inventory_transactions d ++ sales
    /\ Forall2
         (fun r t =>
            documents SALE order_id (OrderItemsRow.product_id r)
              (OrderItemsRow.quantity r) t
            /\ InventoryTransaction.user_id t = user_id)
         (items_of order_id d) sales.
Proof.
  intros Hfind Hheld.
  destruct (update_order_status_found now order_id PAID user_id d order_row Hfind)
    as (w & -> & _ & Hrun & Hrow).
  destruct (loop_transactions SALE Z.opp now order_id user_id
              (items_of order_id d) d) as (sales & Hsales & Hdoc).
  eexists _, sales. split; [exact Hrun|].
  split; [eexists; split; [exact Hrow | split; reflexivity]|].
  split; [|split; [exact Hsales | exact Hdoc]].
  intros product_id p Hget.
  destruct (loop_held SALE Z.opp (-1) now order_id user_id (items_of order_id d)
              d product_id p ltac:(intros; lia) Hheld Hget)
    as (p' & Hget' & Hs & Hr).
  exists p'. split; [exact Hget'|]. lia.
Qed.

(** C3 at work: order 1 of the shop, placed for seven units, is paid. *)
Lemma update_order_status_paid_witness :
  exists d',
    Database.update_order_status 103 1 PAID None shop_placed = (true, [d'])
    /\ option_map Product.stock_quantity (Database.get_product_by_id 1 d')
       = Some 3
    /\ option_map Product.reserved_quantity (Database.get_product_by_id 1 d')
       = Some 0.
Proof.
  destruct (update_order_status_paid 103 1 None shop_placed
              (OrdersRow.mk 1 42 PLACED 101 101 None None))
    as (d' & sales & Hrun & _ & Hps & _).
  - reflexivity.
  - repeat constructor. vm_compute. discriminate.
  - exists d'. split; [exact Hrun|].
    destruct (Hps 1 (Product.mk 1 "P" "" one 10 7 5 100 101) eq_refl)
      as (p' & -> & Hs & Hr).
    simpl. rewrite Hs, Hr. split; reflexivity.
Defined.

(** C3, the claim as stated fails: order 1 is PAID already, nothing is
    reserved for its seven units, and it is asked to become PAID again.
    Nothing is rolled back: the call returns [True], [paid_at] moves to the
    new time and a second SALE of seven units is logged. *)
Lemma paid_order_paid_again :
  option_map OrdersRow.status (find_order 1 shop_paid) = Some PAID
  /\ option_map OrdersRow.paid_at (find_order 1 shop_paid) = Some (Some 103)
  /\ option_map Product.reserved_quantity (Database.get_product_by_id 1 shop_paid)
     = Some 0
  /\ fst (Database.update_order_status 105 1 PAID None shop_paid) = true
  /\ option_map OrdersRow.paid_at
       (find_order 1
          (final shop_paid
             (snd (Database.update_order_status 105 1 PAID None shop_paid))))
     = Some (Some 105)
  /\ audit_sum SALE 1 (inventory_transactions shop_paid) = 7
  /\ audit_sum SALE 1
       (inventory_transactions
          (final shop_paid
             (snd (Database.update_order_status 105 1 PAID None shop_paid))))
     = 14.
Proof. repeat split. Qed.

(** C8, as amended: asked for CANCELLED, [update_order_status] commits
    nothing that changes the stock of a product or the timestamps [paid_at]
    and [delivered_at] of the order; where every item finds its reservation
    ([reserved_quantity >= quantity] at its turn, the guard of the UPDATE)
    it takes the ordered quantity off [reserved_quantity] of each product,
    writes one RELEASE entry per item and sets the status.  Asked for
    DELIVERED, it changes no product, no order item and no transaction, and
    sets [delivered_at]. *)
Theorem update_order_status_cancelled_delivered now order_id user_id d order_row :
  find_order order_id d = Some order_row ->
  (forall d',
     In d' (snd (Database.update_order_status now order_id CANCELLED user_id d)) ->
     (forall product_id p,
        Database.get_product_by_id product_id d = Some p ->
        exists p',
          Database.get_product_by_id product_id d' = Some p'
          /\ Product.stock_quantity p' = Product.stock_quantity p)
     /\ exists row',
          find_order order_id d' = Some row'
          /\ OrdersRow.paid_at row' = OrdersRow.paid_at order_row
          /\ OrdersRow.delivered_at row' = OrdersRow.delivered_at order_row)
  /\ (reservations_held d (items_of order_id d) ->
      exists d' releases,
        Database.update_order_status now order_id CANCELLED user_id d
        = (true, [d'])
        /\ (exists row',
              find_order order_id d' = Some row'
              /\ OrdersRow.status row' = CANCELLED)
        /\ (forall product_id p,
              Database.get_product_by_id product_id d = Some p ->
              exists p',
                Database.get_product_by_id product_id d' = Some p'
                /\ Product.reserved_quantity p'
                   = Product.reserved_quantity p
                     - ordered_rows product_id (items_of order_id d))
        /\ inventory_transactions d' = inventory_transactions d ++ releases
        /\ Forall2
             (fun r t =>
                documents RELEASE order_id (OrderItemsRow.product_id r)
                  (OrderItemsRow.quantity r) t
                /\ InventoryTransaction.user_id t = user_id)
             (items_of order_id d) releases)
  /\ (exists d',
        Database.update_order_status now order_id DELIVERED user_id d
        = (true, [d'])
        /\ products d' = products d
        /\ order_items d' = order_items d
        /\ inventory_transactions d' = inventory_transactions d
        /\ exists row',
             find_order order_id d' = Some row'
             /\ OrdersRow.status row' = DELIVERED
             /\ OrdersRow.delivered_at row' = Some now).
Proof.
  intros Hfind.
  destruct (update_order_status_found now order_id CANCELLED user_id d order_row
              Hfind) as (w & -> & _ & Hrun & Hrow).
  split; [|split].
  - rewrite Hrun. simpl. intros d' [<- | []]. split.
    + intros product_id p Hget.
      exact (loop_release_stock now order_id user_id (items_of order_id d) d
               product_id p Hget).
    + eexists. split; [exact Hrow | split; reflexivity].
  - intros Hheld.
    destruct (loop_transactions RELEASE (fun _ => 0) now order_id user_id
                (items_of order_id d) d) as (releases & Heq & Hdoc).
    eexists _, releases. split; [exact Hrun|].
    split; [eexists; split; [exact Hrow | reflexivity]|].
    split; [|split; [exact Heq | exact Hdoc]].
    intros product_id p Hget.
    destruct (loop_held RELEASE (fun _ => 0) 0 now order_id user_id
                (items_of order_id d) d product_id p ltac:(intros; cbv beta; lia)
                Hheld Hget) as (p' & Hget' & _ & Hr).
    exists p'. split; [exact Hget' | exact Hr].
  - destruct (update_order_status_found now order_id DELIVERED user_id d
                order_row Hfind) as (w' & -> & _ & Hrun' & Hrow').
    eexists. split; [exact Hrun'|]. repeat split.
    eexists. split; [exact Hrow' | split; reflexivity].
Qed.

(** C8 at work: order 1 of the shop, placed for seven units, is cancelled. *)
Lemma update_order_status_cancelled_delivered_witness :
  exists d',
    Database.update_order_status 103 1 CANCELLED None shop_placed = (true, [d'])
    /\ option_map Product.stock_quantity (Database.get_product_by_id 1 d')
       = Some 10
    /\ option_map Product.reserved_quantity (Database.get_product_by_id 1 d')
       = Some 0.
Proof.
  destruct (update_order_status_cancelled_delivered 103 1 None shop_placed
              (OrdersRow.mk 1 42 PLACED 101 101 None None) eq_refl)
    as (Hframe & Hheld & _).
  destruct Hheld as (d' & releases & Hrun & _ & Hps & _);
    [repeat constructor; vm_compute; discriminate|].
  exists d'. split; [exact Hrun|].
  destruct (Hframe d') as (Hstock & _); [rewrite Hrun; now left|].
  destruct (Hstock 1 (Product.mk 1 "P" "" one 10 7 5 100 101) eq_refl)
    as (p' & Hget & Hs).
  destruct (Hps 1 (Product.mk 1 "P" "" one 10 7 5 100 101) eq_refl)
    as (p'' & Hget' & Hr).
  rewrite Hget in *. injection Hget' as <-. simpl. now rewrite Hs, Hr.
Defined.

(** C8, the claim as stated fails: order 2 is PLACED for three units while
    nothing is reserved any more (order 1 was cancelled twice).  Its
    cancellation returns [True] and takes nothing off [reserved_quantity]. *)
Lemma placed_order_cancelled_without_release :
  option_map OrdersRow.status (find_order 2 first_cancelled_twice) = Some PLACED
  /\ map OrderItemsRow.quantity (items_of 2 first_cancelled_twice) = [3]
  /\ option_map Product.reserved_quantity
       (Database.get_product_by_id 1 first_cancelled_twice) = Some 0
  /\ fst (Database.update_order_status 105 2 CANCELLED None first_cancelled_twice)
     = true
  /\ option_map Product.reserved_quantity
       (Database.get_product_by_id 1
          (final first_cancelled_twice
             (snd (Database.update_order_status 105 2 CANCELLED None
                     first_cancelled_twice))))
     = Some 0.
Proof. repeat split. Qed.

(** * The scenario of the specification *)

(** C9: a product with stock 10, nothing reserved and threshold 5.  Seven
    units are reserved, by [reserve_stock] as by the order 1 that
    [create_order] places, and three stay available; a reservation of five
    more is refused, by [reserve_stock] as by [create_order], and commits
    nothing; paying order 1 leaves stock 3, reserved 0 and [paid_at] set;
    the product is then low on stock, its stock 3 being compared with the
    threshold 5. *)
Theorem scenario_of_the_specification :
  option_map
    (fun p => (Product.stock_quantity p, Product.reserved_quantity p,
               Product.low_stock_threshold p))
    (Database.get_product_by_id 1 shop) = Some (10, 0, 5)
  /\ fst (Database.reserve_stock 101 1 7 1 shop) = true
  /\ option_map Product.available_quantity
       (Database.get_product_by_id 1
          (final shop (snd (Database.reserve_stock 101 1 7 1 shop))))
     = Some 3
  /\ option_map Order.id
       (fst (Database.create_order 101 42 [OrderItem.mk 1 7 one] shop)) = Some 1
  /\ option_map Product.available_quantity
       (Database.get_product_by_id 1 shop_placed) = Some 3
  /\ Database.reserve_stock 102 1 5 2 shop_placed = (false, [])
  /\ Database.create_order 102 42 [OrderItem.mk 1 5 one] shop_placed = (None, [])
  /\ fst (Database.update_order_status 103 1 PAID None shop_placed) = true
  /\ option_map
       (fun p => (Product.stock_quantity p, Product.reserved_quantity p))
       (Database.get_product_by_id 1 shop_paid) = Some (3, 0)
  /\ option_map (fun o => (Order.status o, Order.paid_at o))
       (Database.get_order_by_id 1 shop_paid) = Some (PAID, Some 103)
  /\ option_map Product.is_low_stock (Database.get_product_by_id 1 shop_paid)
     = Some true
  /\ option_map
       (fun p => Product.available_quantity p <=? Product.low_stock_threshold p)
       (Database.get_product_by_id 1 shop_placed) = Some true
  /\ option_map Product.is_low_stock (Database.get_product_by_id 1 shop_placed)
     = Some false.
Proof. repeat split. Qed.


(** * create_order *)

Lemma ordered_cons product_id item items :
  ordered product_id (item :: items)
  = (if OrderItem.product_id item =? product_id
     then OrderItem.quantity item else 0)
    + ordered product_id items.
Proof. simpl. destruct (_ =? _); lia. Qed.

Lemma reserve_row_id now p item :
  Product.id (reserve_row now p item) = Product.id p.
Proof. unfold reserve_row. now destruct (has_id _ p). Qed.

(** One product row through the loop of [create_order]. *)
Lemma reserve_rows now items p :
  Product.id (fold_left (reserve_row now) items p) = Product.id p
  /\ Product.stock_quantity (fold_left (reserve_row now) items p)
     = Product.stock_quantity p
  /\ Product.reserved_quantity (fold_left (reserve_row now) items p)
     = Product.reserved_quantity p + ordered (Product.id p) items.
Proof.
  revert p. induction items as [|item items IH]; intros p.
  - simpl. lia.
  - simpl fold_left. destruct (IH (reserve_row now p item)) as (Hid & Hs & Hr).
    rewrite Hid, Hs, Hr, reserve_row_id, ordered_cons. unfold reserve_row, has_id.
    rewrite (Z.eqb_sym (OrderItem.product_id item)).
    destruct (Product.id p =? OrderItem.product_id item); simpl; lia.
Qed.

Lemma can_cannot_reserve d earlier item :
  can_reserve d earlier item -> cannot_reserve d earlier item -> False.
Proof.
  unfold can_reserve, cannot_reserve.
  destruct (Database.get_product_by_id _ d); [lia | tauto].
Qed.

(** After the round of [first], an item reserves just when it reserves
    before that round with [first] counted among the earlier items. *)
Lemma can_reserve_after now first d w earlier item :
  products w
  = update_rows (has_id (OrderItem.product_id first))
      (bump 0 (OrderItem.quantity first) now) (products d) ->
  (can_reserve w earlier item <-> can_reserve d (first :: earlier) item)
  /\ (cannot_reserve w earlier item <-> cannot_reserve d (first :: earlier) item).
Proof.
  intros Hw. unfold can_reserve, cannot_reserve, Database.get_product_by_id.
  rewrite Hw, fetchone_update_rows by reflexivity.
  destruct (fetchone (has_id (OrderItem.product_id item)) (products d))
    as [p|] eqn:E; [|simpl; tauto].
  cbn [option_map]. apply fetchone_has_id in E. rewrite ordered_cons, <- E.
  unfold has_id, Product.available_quantity.
  rewrite (Z.eqb_sym (OrderItem.product_id first)).
  destruct (Product.id p =? OrderItem.product_id first); simpl; lia.
Qed.

Lemma same_products_can_reserve d w earlier item :
  products w = products d ->
  (can_reserve w earlier item <-> can_reserve d earlier item)
  /\ (cannot_reserve w earlier item <-> cannot_reserve d earlier item).
Proof.
  intros Hw. unfold can_reserve, cannot_reserve, Database.get_product_by_id.
  rewrite Hw. tauto.
Qed.

(** The loop stops with a rollback at the first item that cannot reserve,
    and runs through when every item can. *)
Lemma reserve_items_outcome now order_id items w :
  match Database.reserve_items now order_id items w with
  | Some _ =>
      Forall (fun ey => can_reserve w (fst ey) (snd ey)) (with_earlier items)
  | None =>
      Exists (fun ey => cannot_reserve w (fst ey) (snd ey)) (with_earlier items)
  end.
Proof.
  revert w. induction items as [|item items IH]; intros w; [constructor|].
  simpl Database.reserve_items.
  destruct (fetchone (has_id (OrderItem.product_id item)) (products w))
    as [p|] eqn:E.
  - destruct (_ <? OrderItem.quantity item) eqn:Hlt.
    + apply Exists_cons_hd. unfold cannot_reserve, Database.get_product_by_id.
      simpl. rewrite E. apply Z.ltb_lt in Hlt.
      unfold Product.available_quantity. lia.
    + match goal with
      | |- match Database.reserve_items _ _ _ ?w3 with _ => _ end =>
          specialize (IH w3);
          pose proof (fun e y => can_reserve_after now item w w3 e y eq_refl) as Hafter
      end.
      destruct (Database.reserve_items _ _ items _).
      * apply (Forall_with_earlier_cons (can_reserve w)). split.
        -- unfold can_reserve, Database.get_product_by_id. simpl. rewrite E.
           apply Z.ltb_ge in Hlt. unfold Product.available_quantity. lia.
        -- eapply Forall_impl; [|exact IH]. intros [e y]. apply Hafter.
      * simpl. apply Exists_cons_tl, Exists_map.
        eapply Exists_impl; [|exact IH]. intros [e y]. apply Hafter.
  - apply Exists_cons_hd. unfold cannot_reserve, Database.get_product_by_id.
    simpl. now rewrite E.
Qed.

(** What a loop that ran through leaves in the working copy. *)
Lemma reserve_items_some now order_id items w w' :
  Database.reserve_items now order_id items w = Some w' ->
  orders w' = orders w
  /\ order_items w' = order_items w ++ map (row_of_item order_id) items
  /\ products w' = map (fun p => fold_left (reserve_row now) items p) (products w)
  /\ exists reserves,
       inventory_transactions w' = inventory_transactions w ++ reserves
       /\ Forall2
            (fun item t =>
               documents RESERVE order_id (OrderItem.product_id item)
                 (OrderItem.quantity item) t
               /\ InventoryTransaction.user_id t = None)
            items reserves.
Proof.
  revert w. induction items as [|item items IH]; intros w.
  - simpl. intros [= <-]. rewrite map_id, app_nil_r. repeat split.
    exists []. rewrite app_nil_r. auto.
  - simpl Database.reserve_items.
    destruct (fetchone (has_id (OrderItem.product_id item)) (products w));
      [|discriminate].
    destruct (_ <? OrderItem.quantity item); [discriminate|].
    intros H. apply IH in H. destruct H as (Ho & Hoi & Hp & rs & Ht & Hdoc).
    simpl in Ho, Hoi, Hp, Ht. rewrite Ho, Hoi, Hp.
    split; [reflexivity|]. split; [|split].
    + unfold insert, row_of_item. rewrite <- app_assoc. reflexivity.
    + unfold update_rows. rewrite map_map. reflexivity.
    + eexists (_ :: rs). split.
      * rewrite Ht. unfold insert. rewrite <- app_assoc. reflexivity.
      * constructor; [|exact Hdoc]. unfold documents. simpl. auto.
Qed.

Lemma next_id_above ids : Forall (fun i => i < next_id ids) ids.
Proof.
  unfold next_id. induction ids as [|i ids IH]; constructor.
  - cbn [fold_right]. lia.
  - eapply Forall_impl; [|exact IH]. cbn [fold_right]. intros. lia.
Qed.

(** C2: [create_order] is all or nothing.  If some item cannot reserve when
    its turn comes (its product is missing, or what is available less what
    the earlier items took is below its quantity) the call returns [None]
    and commits nothing: the tables are the ones before the call.  If every
    item reserves, one snapshot is committed: it holds the new order row with
    a fresh id, in state PLACED and stamped [now], an [order_items] row and a
    RESERVE entry per item, and the reservations of every product raised by
    what was ordered of it; the [Order] returned carries that id and those
    timestamps.  One of the two cases always applies. *)
Theorem create_order_all_or_nothing now customer_id items d :
  (Exists (fun ey => cannot_reserve d (fst ey) (snd ey)) (with_earlier items) ->
   Database.create_order now customer_id items d = (None, [])
   /\ final d (snd (Database.create_order now customer_id items d)) = d)
  /\ (Forall (fun ey => can_reserve d (fst ey) (snd ey)) (with_earlier items) ->
      exists order d' reserves,
        Database.create_order now customer_id items d = (Some order, [d'])
        /\ order
           = Order.mk (next_id (map OrdersRow.id (orders d))) customer_id items
               PLACED now now None None
        /\ Forall (fun r => OrdersRow.id r < Order.id order) (orders d)
        /\ orders d'
           = orders d
             ++ [OrdersRow.mk (Order.id order) customer_id PLACED now now None None]
        /\ order_items d'
           = order_items d ++ map (row_of_item (Order.id order)) items
        /\ inventory_transactions d' = inventory_transactions d ++ reserves
        /\ Forall2
             (fun item t =>
                documents RESERVE (Order.id order) (OrderItem.product_id item)
                  (OrderItem.quantity item) t
                /\ InventoryTransaction.user_id t = None)
             items reserves
        /\ forall product_id p,
             Database.get_product_by_id product_id d = Some p ->
             exists p',
               Database.get_product_by_id product_id d' = Some p'
               /\ Product.stock_quantity p' = Product.stock_quantity p
               /\ Product.reserved_quantity p'
                  = Product.reserved_quantity p + ordered product_id items)
  /\ (Exists (fun ey => cannot_reserve d (fst ey) (snd ey)) (with_earlier items)
      \/ Forall (fun ey => can_reserve d (fst ey) (snd ey)) (with_earlier items)).
Proof.
  set (order_row :=
         OrdersRow.mk (next_id (map OrdersRow.id (orders d))) customer_id PLACED
           now now None None).
  set (w := set_orders (insert order_row (orders d)) d).
  pose proof (reserve_items_outcome now (OrdersRow.id order_row) items w) as Hout.
  assert (Hsame : forall e y,
             (can_reserve w e y <-> can_reserve d e y)
             /\ (cannot_reserve w e y <-> cannot_reserve d e y))
    by (intros; now apply same_products_can_reserve).
  unfold Database.create_order. fold order_row. fold w.
  destruct (Database.reserve_items now (OrdersRow.id order_row) items w)
    as [w'|] eqn:Hrun.
  - assert (Hall : Forall (fun ey => can_reserve d (fst ey) (snd ey))
                     (with_earlier items))
      by (eapply Forall_impl; [|exact Hout]; intros [e y]; apply Hsame).
    split; [|split; [|now right]].
    + intros Hex. exfalso. apply Exists_exists in Hex.
      destruct Hex as ([e y] & Hin & Hno).
      rewrite Forall_forall in Hall. specialize (Hall _ Hin).
      exact (can_cannot_reserve d e y Hall Hno).
    + intros _. apply reserve_items_some in Hrun.
      destruct Hrun as (Ho & Hoi & Hp & reserves & Ht & Hdoc).
      eexists _, w', reserves. split; [reflexivity|]. split; [reflexivity|].
      split; [|split; [exact Ho|split; [exact Hoi|split; [exact Ht|split;
        [exact Hdoc|]]]]].
      * pose proof (next_id_above (map OrdersRow.id (orders d))) as Hab.
        now rewrite Forall_map in Hab.
      * intros product_id p Hget. unfold Database.get_product_by_id in *.
        rewrite Hp. simpl.
        rewrite fetchone_map
          by (intros r; unfold has_id;
              now rewrite (proj1 (reserve_rows now items r))).
        rewrite Hget. simpl. eexists. split; [reflexivity|].
        destruct (reserve_rows now items p) as (_ & Hs & Hr).
        apply fetchone_has_id in Hget. rewrite <- Hget. auto.
  - split; [auto|]. split; [|left].
    + intros Hall. exfalso. apply Exists_exists in Hout.
      destruct Hout as ([e y] & Hin & Hno).
      rewrite Forall_forall in Hall. specialize (Hall _ Hin).
      apply Hsame in Hno. exact (can_cannot_reserve d e y Hall Hno).
    + eapply Exists_impl; [|exact Hout]. intros [e y]. apply Hsame.
Qed.

(** C2 at work, the atomicity scenario of the specification: the first
    item of the order reserves four of the ten units, the second asks for
    seven of the six that are left; nothing is committed. *)
Lemma create_order_all_or_nothing_witness :
  Database.create_order 101 42 [OrderItem.mk 1 4 one; OrderItem.mk 1 7 one] shop
  = (None, [])
  /\ final shop
       (snd (Database.create_order 101 42
               [OrderItem.mk 1 4 one; OrderItem.mk 1 7 one] shop))
     = shop.
Proof.
  apply (proj1 (create_order_all_or_nothing 101 42
                  [OrderItem.mk 1 4 one; OrderItem.mk 1 7 one] shop)).
  simpl with_earlier. apply Exists_cons_tl, Exists_cons_hd.
  vm_compute. reflexivity.
Defined.


(** * The invariant of the ledger *)

Lemma Forall_update_rows {row : Type} (P : row -> Prop) cond set rows :
  Forall P rows ->
  (forall r, In r rows -> P r -> cond r = true -> P (set r)) ->
  Forall P (update_rows cond set rows).
Proof.
  intros Hall Hset. unfold update_rows. apply Forall_map.
  rewrite Forall_forall in *. intros r Hin.
  destruct (cond r) eqn:Hc; auto.
Qed.

Lemma ids_update_rows cond set rows :
  (forall p, Product.id (set p) = Product.id p) ->
  map Product.id (update_rows cond set rows) = map Product.id rows.
Proof.
  intros Hset. unfold update_rows. rewrite map_map. apply map_ext.
  intros p. now destruct (cond p).
Qed.

Lemma next_id_fresh rows : ~ In (next_id (map Product.id rows)) (map Product.id rows).
Proof.
  intros Hin. pose proof (next_id_above (map Product.id rows)) as Hab.
  rewrite Forall_forall in Hab. specialize (Hab _ Hin). lia.
Qed.

Lemma NoDup_snoc {A : Type} (l : list A) x : NoDup l -> ~ In x l -> NoDup (l ++ [x]).
Proof.
  intros Hnd Hx. apply NoDup_app; [exact Hnd | repeat constructor; simpl; tauto |].
  intros y Hy [<- | []]. exact (Hx Hy).
Qed.

(** The UPDATE of a reservation, after the test on the row of the product. *)
Lemma reserve_update_ledger_ok now product_id quantity d p :
  NoDup (map Product.id (products d)) ->
  Forall ledger_ok (products d) ->
  Database.get_product_by_id product_id d = Some p ->
  0 <= quantity <= Product.stock_quantity p - Product.reserved_quantity p ->
  Forall ledger_ok
    (update_rows (has_id product_id) (bump 0 quantity now) (products d)).
Proof.
  intros Hnd Hok Hget Hq. apply Forall_update_rows; [exact Hok|].
  intros r Hin Hr Hc. apply has_id_true in Hc.
  rewrite (get_product_by_id_unique product_id d p r Hnd Hget Hin Hc) in *.
  unfold ledger_ok in *. simpl. lia.
Qed.

Lemma take_row_sale_ledger_ok now p r :
  ledger_ok p -> ledger_ok (take_row Z.opp now p r).
Proof.
  unfold take_row, ledger_ok. destruct (has_id_reserved _ _ p) eqn:Hg; [|auto].
  apply has_id_reserved_true in Hg. simpl. lia.
Qed.

Lemma take_row_release_ledger_ok now p r :
  0 <= OrderItemsRow.quantity r ->
  ledger_ok p -> ledger_ok (take_row (fun _ => 0) now p r).
Proof.
  unfold take_row, ledger_ok. destruct (has_id_reserved _ _ p) eqn:Hg; [|auto].
  apply has_id_reserved_true in Hg. simpl. lia.
Qed.

Lemma take_rows_ledger_ok ds now rows p :
  (forall p r, In r rows -> ledger_ok p -> ledger_ok (take_row ds now p r)) ->
  ledger_ok p -> ledger_ok (fold_left (take_row ds now) rows p).
Proof.
  revert p. induction rows as [|r rows IH]; intros p Hstep Hp; [exact Hp|].
  simpl. apply IH.
  - intros p' r' Hin. apply Hstep. now right.
  - apply Hstep; [now left | exact Hp].
Qed.

(** A loop of [update_order_status] keeps the invariant when each of its
    rounds keeps a row within [ledger_ok]. *)
Lemma loop_ledger_invariant ty ds now order_id user_id rows d :
  (forall p r, In r rows -> ledger_ok p -> ledger_ok (take_row ds now p r)) ->
  ledger_invariant d ->
  ledger_invariant (fold_left (item_step ty ds now order_id user_id) rows d).
Proof.
  intros Hstep (Hnd & Hok & Hq). unfold ledger_invariant.
  rewrite loop_products, loop_order_items. split; [|split; [|exact Hq]].
  - rewrite map_map.
    rewrite (map_ext _ Product.id (fun p => take_rows_id ds now rows p)).
    exact Hnd.
  - apply Forall_map. eapply Forall_impl; [|exact Hok].
    intros p. now apply take_rows_ledger_ok.
Qed.

Lemma reserve_items_ledger_invariant now order_id items w w' :
  Forall (fun i => 0 <= OrderItem.quantity i) items ->
  ledger_invariant w ->
  Database.reserve_items now order_id items w = Some w' ->
  ledger_invariant w'.
Proof.
  revert w. induction items as [|item items IH]; intros w Hitems Hinv.
  - simpl. now intros [= <-].
  - simpl Database.reserve_items. inversion Hitems as [|? ? Hq Hrest]; subst.
    destruct (fetchone (has_id (OrderItem.product_id item)) (products w))
      as [p|] eqn:E; [|discriminate].
    destruct (_ <? OrderItem.quantity item) eqn:Hlt; [discriminate|].
    apply Z.ltb_ge in Hlt. apply IH; [exact Hrest|].
    destruct Hinv as (Hnd & Hok & Hoi). unfold ledger_invariant. simpl.
    split; [|split].
    + now rewrite ids_update_rows by reflexivity.
    + apply (reserve_update_ledger_ok now _ _ w p); auto.
    + unfold insert. apply Forall_app. split; [exact Hoi|].
      repeat constructor. exact Hq.
Qed.

Lemma ledger_invariant_orders os d :
  ledger_invariant d -> ledger_invariant (set_orders os d).
Proof. intros H. exact H. Qed.

Lemma ledger_invariant_products ps d :
  map Product.id ps = map Product.id (products d) ->
  Forall ledger_ok ps ->
  ledger_invariant d -> ledger_invariant (set_products ps d).
Proof.
  intros Hids Hok (Hnd & _ & Hoi). unfold ledger_invariant. simpl.
  rewrite Hids. auto.
Qed.

(** Every snapshot that a call with non-negative quantities commits
    satisfies the invariant. *)
(** Closes [Forall P [d1; ...; dn]] when [H] proves [P] of every snapshot. *)
Ltac snapshots H := repeat (apply Forall_cons; [exact H|]); apply Forall_nil.

Lemma run_ledger_invariant now c d :
  ledger_invariant d -> nonnegative_call d now c ->
  Forall ledger_invariant (run now c d).
Proof.
  intros Hinv Hc. pose proof Hinv as (Hnd & Hok & Hoi).
  destruct c as [name description price stock_quantity threshold
                | product_id kwargs | product_id quantity user_id
                | product_id quantity order_id | product_id quantity order_id
                | product_id quantity order_id | customer_id items
                | order_id status user_id];
    simpl in Hc; simpl run.
  - assert (H1 : ledger_invariant
                   (set_products
                      (insert
                         (Product.mk (next_id (map Product.id (products d))) name
                            description price stock_quantity 0 threshold now now)
                         (products d)) d)).
    { unfold ledger_invariant, insert. simpl. rewrite map_app. simpl.
      split; [apply NoDup_snoc; [exact Hnd | apply next_id_fresh]|].
      split; [|exact Hoi]. apply Forall_app. split; [exact Hok|].
      repeat constructor; simpl; lia. }
    unfold Database.create_product. simpl. snapshots H1.
  - contradiction.
  - assert (H1 : ledger_invariant
                   (set_products
                      (update_rows (has_id product_id) (bump quantity 0 now)
                         (products d)) d)).
    { apply ledger_invariant_products; [now apply ids_update_rows| |exact Hinv].
      apply Forall_update_rows; [exact Hok|].
      intros r _ Hr _. unfold ledger_ok in *. simpl. lia. }
    unfold Database.restock_product.
    destruct (rowcount _ _ >? 0); simpl; snapshots H1.
  - unfold Database.reserve_stock.
    destruct (fetchone (has_id product_id) (products d)) as [p|] eqn:E;
      [|constructor].
    destruct (_ >=? quantity) eqn:Hge; [|constructor].
    rewrite Z.geb_leb in Hge. apply Z.leb_le in Hge.
    assert (H1 : ledger_invariant
                   (set_products
                      (update_rows (has_id product_id) (bump 0 quantity now)
                         (products d)) d)).
    { apply ledger_invariant_products; [now apply ids_update_rows| |exact Hinv].
      apply (reserve_update_ledger_ok now _ _ d p); auto. }
    simpl. snapshots H1.
  - assert (H1 : ledger_invariant
                   (set_products
                      (update_rows (has_id_reserved product_id quantity)
                         (bump 0 (- quantity) now) (products d)) d)).
    { apply ledger_invariant_products; [now apply ids_update_rows| |exact Hinv].
      apply Forall_update_rows; [exact Hok|].
      intros r _ Hr Hg. apply has_id_reserved_true in Hg.
      unfold ledger_ok in *. simpl. lia. }
    unfold Database.release_stock.
    destruct (rowcount _ _ >? 0); simpl; snapshots H1.
  - assert (H1 : ledger_invariant
                   (set_products
                      (update_rows (has_id_reserved product_id quantity)
                         (bump (- quantity) (- quantity) now) (products d)) d)).
    { apply ledger_invariant_products; [now apply ids_update_rows| |exact Hinv].
      apply Forall_update_rows; [exact Hok|].
      intros r _ Hr Hg. apply has_id_reserved_true in Hg.
      unfold ledger_ok in *. simpl. lia. }
    unfold Database.sell_product.
    destruct (rowcount _ _ >? 0); simpl; snapshots H1.
  - unfold Database.create_order.
    destruct (Database.reserve_items _ _ items _) as [w'|] eqn:Hrun;
      [|constructor].
    apply Forall_cons; [|apply Forall_nil].
    eapply reserve_items_ledger_invariant; [exact Hc| |exact Hrun].
    now apply ledger_invariant_orders.
  - unfold Database.update_order_status.
    destruct (fetchone _ (orders d)); [|constructor].
    apply Forall_cons; [|apply Forall_nil]. apply ledger_invariant_orders.
    destruct status; try exact Hinv.
    + rewrite sale_item_step. apply loop_ledger_invariant; [|exact Hinv].
      intros p r _. apply take_row_sale_ledger_ok.
    + rewrite release_item_step. apply loop_ledger_invariant; [|exact Hinv].
      intros p r Hin. apply take_row_release_ledger_ok.
      rewrite Forall_forall in Hoi. apply Hoi.
      now apply filter_In in Hin.
Qed.

Lemma final_Forall (P : Tables -> Prop) d commits :
  P d -> Forall P commits -> P (final d commits).
Proof.
  unfold final. intros Hd Hall. revert d Hd.
  induction Hall as [|c commits Hc Hall IH]; intros d Hd; [exact Hd|].
  destruct commits as [|c' commits]; [exact Hc|]. exact (IH d Hd).
Qed.

Lemma reachable_ledger_invariant d :
  reachable nonnegative_call d -> ledger_invariant d.
Proof.
  induction 1 as [|d now c _ IH Hc].
  - repeat constructor.
  - apply final_Forall; [exact IH | now apply run_ledger_invariant].
Qed.

(** C6, as amended: in every state reached from the empty database by
    [create_product], [restock_product], [reserve_stock], [release_stock],
    [sell_product], [create_order] and [update_order_status], called with
    quantities that are not negative (the initial stock of [create_product],
    the quantity of a restock, a reservation or a release, the quantities of
    the items of an order), every product has
    [0 <= reserved_quantity <= stock_quantity]; and so has it in every
    snapshot that one more such call commits. *)
Theorem ledger_invariant_reachable d :
  reachable nonnegative_call d ->
  Forall ledger_ok (products d)
  /\ forall now c,
       nonnegative_call d now c ->
       Forall (fun d' => Forall ledger_ok (products d')) (run now c d).
Proof.
  intros Hreach. pose proof (reachable_ledger_invariant d Hreach) as Hinv.
  split; [apply Hinv|].
  intros now c Hc. eapply Forall_impl; [|exact (run_ledger_invariant now c d Hinv Hc)].
  intros d' Hd'. apply Hd'.
Qed.

Lemma shop_reachable (allowed : Tables -> Z -> call -> Prop) :
  allowed empty_tables 100 (create_product_call "P" "" one 10 5) ->
  reachable allowed shop.
Proof.
  intros H.
  exact (reachable_call allowed empty_tables 100
           (create_product_call "P" "" one 10 5) (reachable_empty allowed) H).
Qed.

(** C6 at work: the shop with order 1 placed is reached by a
    [create_product] of ten units and a [create_order] of seven. *)
Lemma ledger_invariant_reachable_witness :
  Forall ledger_ok (products shop_placed).
Proof.
  apply (ledger_invariant_reachable shop_placed).
  apply (reachable_call nonnegative_call shop 101
           (create_order_call 42 [OrderItem.mk 1 7 one])).
  - apply shop_reachable. simpl. lia.
  - simpl. repeat constructor. simpl. lia.
Defined.

(** C6, the claim as stated fails: [restock_product(1, -15)] is a call of
    the public operations, and it leaves the product with a stock of -5
    under a reservation of 0. *)
Lemma restock_breaks_ledger_invariant :
  reachable ledger_call shop_overdrawn
  /\ option_map
       (fun p => (Product.stock_quantity p, Product.reserved_quantity p))
       (Database.get_product_by_id 1 shop_overdrawn) = Some (-5, 0)
  /\ exists p,
       In p (products shop_overdrawn)
       /\ Product.stock_quantity p < Product.reserved_quantity p.
Proof.
  split; [|split; [reflexivity|]].
  - apply (reachable_call ledger_call shop 101 (restock_product_call 1 (-15) None)).
    + now apply shop_reachable.
    + exact I.
  - eexists. split; [left; reflexivity|]. simpl. lia.
Qed.


(** * The audit trail *)

Lemma audit_sum_app ty product_id ts ts' :
  audit_sum ty product_id (ts ++ ts')
  = audit_sum ty product_id ts + audit_sum ty product_id ts'.
Proof.
  induction ts as [|t ts IH]; simpl; [reflexivity|].
  destruct (_ && _); lia.
Qed.

Lemma audit_sum_insert ty product_id t ts :
  audit_sum ty product_id (insert t ts)
  = audit_sum ty product_id ts
    + (if TransactionType_eqb (InventoryTransaction.transaction_type t) ty
          && (InventoryTransaction.product_id t =? product_id)
       then InventoryTransaction.quantity t else 0).
Proof.
  unfold insert. rewrite audit_sum_app. simpl. destruct (_ && _); lia.
Qed.

Lemma audit_sum_absent ty product_id ts :
  Forall (fun t => InventoryTransaction.product_id t <> product_id) ts ->
  audit_sum ty product_id ts = 0.
Proof.
  induction 1 as [|t ts Ht _ IH]; simpl; [reflexivity|].
  apply Z.eqb_neq in Ht. rewrite Ht, andb_false_r. exact IH.
Qed.

(** A row of the product of a new transaction reconciles again once the
    effect of the transaction is applied to it; a row of another product
    reconciles as it is. *)
Lemma reconciled_insert ty quantity now ts t p :
  InventoryTransaction.transaction_type t = ty ->
  InventoryTransaction.quantity t = quantity ->
  reconciled ts p ->
  (InventoryTransaction.product_id t = Product.id p ->
   reconciled (insert t ts)
     (bump (fst (effect ty quantity)) (snd (effect ty quantity)) now p))
  /\ (InventoryTransaction.product_id t <> Product.id p ->
      reconciled (insert t ts) p).
Proof.
  intros Hty Hq [Hs Hr]. unfold reconciled. rewrite !audit_sum_insert.
  split.
  - intros Hid. simpl Product.id. rewrite Hid, Z.eqb_refl, !andb_true_r, Hty, Hq.
    destruct ty; simpl; lia.
  - intros Hne. apply Z.eqb_neq in Hne. rewrite Hne, !andb_false_r. lia.
Qed.

(** One mutation of the ledger with its audit entry: an UPDATE that
    changes the rows of a product by the effect of a transaction, and the
    INSERT of that transaction. *)
Lemma audit_invariant_step ty quantity now cond t os ois d :
  InventoryTransaction.transaction_type t = ty ->
  InventoryTransaction.quantity t = quantity ->
  selects cond (InventoryTransaction.product_id t) (products d) ->
  In (InventoryTransaction.product_id t) (map Product.id (products d)) ->
  audit_invariant d ->
  audit_invariant
    (mkTables
       (update_rows cond
          (bump (fst (effect ty quantity)) (snd (effect ty quantity)) now)
          (products d))
       os ois (insert t (inventory_transactions d))).
Proof.
  intros Hty Hq Hsel Hin (Hnd & Hts & Hrec). unfold audit_invariant. simpl.
  rewrite ids_update_rows by reflexivity. split; [exact Hnd|]. split.
  - unfold insert. apply Forall_app. split; [exact Hts|]. now repeat constructor.
  - unfold update_rows. apply Forall_map. rewrite Forall_forall in *.
    intros p Hp. specialize (Hrec p Hp).
    destruct (reconciled_insert ty quantity now _ t p Hty Hq Hrec) as [Hsame Hother].
    specialize (Hsel p Hp). destruct (cond p).
    + apply Hsame. symmetry. now apply Hsel.
    + apply Hother. intros Hid. symmetry in Hid. apply Hsel in Hid. discriminate.
Qed.

Lemma selects_has_id product_id rows : selects (has_id product_id) product_id rows.
Proof. intros p _. apply has_id_true. Qed.

Lemma same_id_same_row rows (p q : Product.t) :
  NoDup (map Product.id rows) -> In p rows -> In q rows ->
  Product.id p = Product.id q -> p = q.
Proof.
  induction rows as [|r rows IH]; simpl; [tauto|].
  intros Hnd Hp Hq Hid. inversion Hnd as [|? ? Hnotin Hnd']; subst.
  destruct Hp as [-> | Hp], Hq as [-> | Hq]; auto.
  - exfalso. apply Hnotin. rewrite Hid. now apply in_map.
  - exfalso. apply Hnotin. rewrite <- Hid. now apply in_map.
Qed.

(** With [id] a key, a guarded UPDATE that matched a row matched the row of
    the product. *)
Lemma selects_has_id_reserved product_id quantity rows :
  NoDup (map Product.id rows) ->
  0 < rowcount (has_id_reserved product_id quantity) rows ->
  selects (has_id_reserved product_id quantity) product_id rows
  /\ In product_id (map Product.id rows).
Proof.
  intros Hnd Hcount. apply rowcount_positive in Hcount.
  destruct Hcount as (r & Hr & Hg). pose proof Hg as Hg'.
  apply has_id_reserved_true in Hg'. destruct Hg' as [Hid _]. split.
  - intros p Hp. split; [intros H; now apply has_id_reserved_true in H|].
    intros Hpid. now rewrite (same_id_same_row rows p r Hnd Hp Hr) by congruence.
  - rewrite <- Hid. now apply in_map.
Qed.

Lemma fetchone_in_ids product_id rows p :
  fetchone (has_id product_id) rows = Some p ->
  In product_id (map Product.id rows).
Proof.
  intros H. apply find_some in H. destruct H as [Hin Hid].
  apply has_id_true in Hid. rewrite <- Hid. now apply in_map.
Qed.

Lemma audit_invariant_orders os d :
  audit_invariant d -> audit_invariant (set_orders os d).
Proof. intros H. exact H. Qed.

(** A round of a loop of [update_order_status] whose UPDATE matched. *)
Lemma item_step_audit_invariant ty ds now order_id user_id w r :
  (forall q, (ds q, - q) = effect ty q) ->
  0 < rowcount
        (has_id_reserved (OrderItemsRow.product_id r) (OrderItemsRow.quantity r))
        (products w) ->
  audit_invariant w ->
  audit_invariant (item_step ty ds now order_id user_id w r).
Proof.
  intros Heff Hcount Hinv. pose proof Hinv as (Hnd & _).
  destruct (selects_has_id_reserved _ _ _ Hnd Hcount) as [Hsel Hin].
  pose proof
    (audit_invariant_step ty (OrderItemsRow.quantity r) now
       (has_id_reserved (OrderItemsRow.product_id r) (OrderItemsRow.quantity r))
       (InventoryTransaction.mk
          (next_id (map InventoryTransaction.id (inventory_transactions w)))
          (OrderItemsRow.product_id r) ty (OrderItemsRow.quantity r)
          (Some order_id) user_id "" now)
       (orders w) (order_items w) w eq_refl eq_refl Hsel Hin Hinv) as Hstep.
  rewrite <- Heff in Hstep. exact Hstep.
Qed.

Lemma loop_audit_invariant ty ds now order_id user_id rows w :
  (forall q, (ds q, - q) = effect ty q) ->
  guards_match (item_step ty ds now order_id user_id) rows w ->
  audit_invariant w ->
  audit_invariant (fold_left (item_step ty ds now order_id user_id) rows w).
Proof.
  intros Heff. revert w. induction rows as [|r rows IH]; intros w; [auto|].
  simpl. intros [Hcount Hrest] Hinv. apply IH; [exact Hrest|].
  now apply item_step_audit_invariant.
Qed.

Lemma reserve_items_audit_invariant now order_id items w w' :
  audit_invariant w ->
  Database.reserve_items now order_id items w = Some w' ->
  audit_invariant w'.
Proof.
  revert w. induction items as [|item items IH]; intros w Hinv.
  - simpl. now intros [= <-].
  - simpl Database.reserve_items.
    destruct (fetchone (has_id (OrderItem.product_id item)) (products w))
      as [p|] eqn:E; [|discriminate].
    destruct (_ <? OrderItem.quantity item); [discriminate|].
    apply IH.
    exact (audit_invariant_step RESERVE (OrderItem.quantity item) now
             (has_id (OrderItem.product_id item))
             (InventoryTransaction.mk
                (next_id (map InventoryTransaction.id (inventory_transactions w)))
                (OrderItem.product_id item) RESERVE (OrderItem.quantity item)
                (Some order_id) None "" now)
             (orders w)
             (insert
                (OrderItemsRow.mk order_id (OrderItem.product_id item)
                   (OrderItem.quantity item) (OrderItem.unit_price item))
                (order_items w))
             w eq_refl eq_refl (selects_has_id _ _) (fetchone_in_ids _ _ _ E) Hinv).
Qed.

Lemma unmatched_update_is_identity cond set d :
  (rowcount cond (products d) >? 0) = false ->
  set_products (update_rows cond set (products d)) d = d.
Proof.
  intros Hc. rewrite rowcount_fetchone in Hc.
  destruct (fetchone cond (products d)) eqn:E; [discriminate|].
  rewrite update_rows_unmatched by (now apply fetchone_none).
  unfold set_products. apply tables_eta.
Qed.

Lemma create_product_audit_invariant now name description price stock_quantity
    threshold d :
  audit_invariant d ->
  audit_invariant
    (final d
       (snd (Database.create_product now name description price stock_quantity
               threshold d))).
Proof.
  intros (Hnd & Hts & Hrec).
  pose proof (next_id_fresh (products d)) as Hfresh.
  set (n := next_id (map Product.id (products d))) in *.
  unfold Database.create_product, final, audit_invariant. simpl. fold n.
  clearbody n. unfold insert. rewrite map_app. simpl.
  split; [now apply NoDup_snoc|]. split.
  - apply Forall_app. split.
    + eapply Forall_impl; [|exact Hts]. intros t Ht. apply in_or_app. now left.
    + repeat constructor. simpl. apply in_or_app. right. now left.
  - assert (Habsent : Forall
                        (fun t => InventoryTransaction.product_id t <> n)
                        (inventory_transactions d)).
    { eapply Forall_impl; [|exact Hts]. intros t Ht Heq. apply Hfresh.
      now rewrite <- Heq. }
    apply Forall_app. split.
    + rewrite Forall_forall in Hrec. apply Forall_forall. intros p Hp.
      refine (proj2 (reconciled_insert RESTOCK stock_quantity now _
                       (InventoryTransaction.mk
                          (next_id
                             (map InventoryTransaction.id
                                (inventory_transactions d)))
                          n RESTOCK stock_quantity None None "Initial stock" now)
                       p eq_refl eq_refl (Hrec p Hp)) _).
      simpl. intros Heq. apply Hfresh. rewrite Heq. now apply in_map.
    + apply Forall_cons; [|apply Forall_nil]. unfold reconciled. simpl.
      rewrite !audit_sum_app.
      rewrite (audit_sum_absent RESTOCK n), (audit_sum_absent SALE n),
        (audit_sum_absent RESERVE n), (audit_sum_absent RELEASE n)
        by exact Habsent.
      simpl. rewrite Z.eqb_refl. lia.
Qed.

(** A complete call whose guarded UPDATEs all find their row keeps the
    reconciliation. *)
Lemma run_audit_invariant now c d :
  audit_invariant d -> audited_call d now c ->
  audit_invariant (final d (run now c d)).
Proof.
  intros Hinv Hc. pose proof Hinv as (Hnd & _).
  destruct c as [name description price stock_quantity threshold
                | product_id kwargs | product_id quantity user_id
                | product_id quantity order_id | product_id quantity order_id
                | product_id quantity order_id | customer_id items
                | order_id status user_id];
    simpl in Hc; simpl run.
  - now apply create_product_audit_invariant.
  - contradiction.
  - unfold Database.restock_product.
    destruct (rowcount _ _ >? 0) eqn:Hrows.
    + rewrite rowcount_fetchone in Hrows.
      destruct (fetchone (has_id product_id) (products d)) as [p|] eqn:E;
        [|discriminate].
      exact (audit_invariant_step RESTOCK quantity now (has_id product_id)
               (InventoryTransaction.mk _ product_id RESTOCK quantity None user_id
                  "" now)
               (orders d) (order_items d) d eq_refl eq_refl (selects_has_id _ _)
               (fetchone_in_ids _ _ _ E) Hinv).
    + unfold final. simpl. now rewrite unmatched_update_is_identity.
  - unfold Database.reserve_stock.
    destruct (fetchone (has_id product_id) (products d)) as [p|] eqn:E;
      [|exact Hinv].
    destruct (_ >=? quantity); [|exact Hinv].
    exact (audit_invariant_step RESERVE quantity now (has_id product_id)
             (InventoryTransaction.mk _ product_id RESERVE quantity
                (Some order_id) None "" now)
             (orders d) (order_items d) d eq_refl eq_refl (selects_has_id _ _)
             (fetchone_in_ids _ _ _ E) Hinv).
  - unfold Database.release_stock.
    destruct (rowcount _ _ >? 0) eqn:Hrows.
    + apply Z.gtb_lt in Hrows.
      destruct (selects_has_id_reserved _ _ _ Hnd Hrows) as [Hsel Hin].
      exact (audit_invariant_step RELEASE quantity now
               (has_id_reserved product_id quantity)
               (InventoryTransaction.mk _ product_id RELEASE quantity
                  (Some order_id) None "" now)
               (orders d) (order_items d) d eq_refl eq_refl Hsel Hin Hinv).
    + unfold final. simpl. now rewrite unmatched_update_is_identity.
  - unfold Database.sell_product.
    destruct (rowcount _ _ >? 0) eqn:Hrows.
    + apply Z.gtb_lt in Hrows.
      destruct (selects_has_id_reserved _ _ _ Hnd Hrows) as [Hsel Hin].
      exact (audit_invariant_step SALE quantity now
               (has_id_reserved product_id quantity)
               (InventoryTransaction.mk _ product_id SALE quantity
                  (Some order_id) None "" now)
               (orders d) (order_items d) d eq_refl eq_refl Hsel Hin Hinv).
    + unfold final. simpl. now rewrite unmatched_update_is_identity.
  - unfold Database.create_order.
    destruct (Database.reserve_items _ _ items _) as [w'|] eqn:Hrun;
      [|exact Hinv].
    eapply reserve_items_audit_invariant; [|exact Hrun].
    now apply audit_invariant_orders.
  - unfold Database.update_order_status.
    assert (Hfound : forall row,
               fetchone (Database.order_has_id order_id) (orders d) = Some row ->
               find_order order_id d <> None)
      by (unfold find_order; congruence).
    destruct (fetchone _ (orders d)) as [row|]; [|exact Hinv].
    specialize (Hfound row eq_refl). unfold final. simpl last.
    apply audit_invariant_orders. destruct status; try exact Hinv.
    + rewrite sale_item_step. apply loop_audit_invariant; auto.
    + rewrite release_item_step. apply loop_audit_invariant; auto.
Qed.

Lemma reachable_audit_invariant d :
  reachable audited_call d -> audit_invariant d.
Proof.
  induction 1 as [|d now c _ IH Hc].
  - repeat constructor.
  - now apply run_audit_invariant.
Qed.

(** C7, as amended: in every state reached from the empty database by
    complete calls of [create_product], [restock_product], [reserve_stock],
    [release_stock], [sell_product], [create_order] and
    [update_order_status] in which every guarded UPDATE issued by
    [update_order_status] finds its row, every product reconciles with its
    transactions: [stock_quantity] is the sum of the RESTOCK quantities less
    the SALE quantities, [reserved_quantity] the sum of the RESERVE
    quantities less the RELEASE and the SALE quantities. *)
Theorem ledger_reconciles_with_audit_trail d :
  reachable audited_call d ->
  forall product_id p,
    Database.get_product_by_id product_id d = Some p ->
    Product.stock_quantity p
    = audit_sum RESTOCK product_id (inventory_transactions d)
      - audit_sum SALE product_id (inventory_transactions d)
    /\ Product.reserved_quantity p
       = audit_sum RESERVE product_id (inventory_transactions d)
         - audit_sum RELEASE product_id (inventory_transactions d)
         - audit_sum SALE product_id (inventory_transactions d).
Proof.
  intros Hreach product_id p Hget.
  destruct (reachable_audit_invariant d Hreach) as (_ & _ & Hrec).
  apply find_some in Hget. destruct Hget as [Hin Hid].
  apply has_id_true in Hid. rewrite Forall_forall in Hrec.
  specialize (Hrec p Hin). unfold reconciled in Hrec. now rewrite Hid in Hrec.
Qed.

Lemma shop_paid_reachable : reachable audited_call shop_paid.
Proof.
  apply (reachable_call audited_call shop_placed 103
           (update_order_status_call 1 PAID None)).
  - apply (reachable_call audited_call shop 101
             (create_order_call 42 [OrderItem.mk 1 7 one])).
    + now apply shop_reachable.
    + exact I.
  - intros _. split; [vm_compute; reflexivity | exact I].
Qed.

(** C7 at work: the shop after order 1 was placed and paid. *)
Lemma ledger_reconciles_with_audit_trail_witness :
  3 = audit_sum RESTOCK 1 (inventory_transactions shop_paid)
      - audit_sum SALE 1 (inventory_transactions shop_paid)
  /\ 0 = audit_sum RESERVE 1 (inventory_transactions shop_paid)
         - audit_sum RELEASE 1 (inventory_transactions shop_paid)
         - audit_sum SALE 1 (inventory_transactions shop_paid).
Proof.
  exact (ledger_reconciles_with_audit_trail shop_paid shop_paid_reachable 1
           (Product.mk 1 "P" "" one 3 0 5 100 103) eq_refl).
Defined.

(** C7, the claim as stated fails: [update_product(1, stock_quantity=99)]
    rewrites the stock and logs nothing, the transactions still add up to
    the ten units of the initial stock. *)
Lemma update_product_breaks_reconciliation :
  reachable (fun _ _ _ => True) shop_rewritten
  /\ option_map Product.stock_quantity (Database.get_product_by_id 1 shop_rewritten)
     = Some 99
  /\ audit_sum RESTOCK 1 (inventory_transactions shop_rewritten)
     - audit_sum SALE 1 (inventory_transactions shop_rewritten) = 10.
Proof.
  split; [|split; reflexivity].
  apply (reachable_call (fun _ _ _ => True) shop 101
           (update_product_call 1 (Kwargs.mk None None None (Some 99) None None))).
  - now apply shop_reachable.
  - exact I.
Qed.


(** * Beyond the claims: the primitives of the ledger when they succeed *)

Lemma get_product_moved cond ds dr now t d product_id :
  Database.get_product_by_id product_id (moved cond ds dr now t d)
  = option_map (fun p => if cond p then bump ds dr now p else p)
      (Database.get_product_by_id product_id d).
Proof.
  unfold Database.get_product_by_id, moved. simpl.
  now apply fetchone_update_rows.
Qed.

Lemma quantities_moved cond ds dr now t d product_id p :
  Database.get_product_by_id product_id d = Some p ->
  quantities product_id (moved cond ds dr now t d)
  = Some (if cond p
          then (Product.stock_quantity p + ds, Product.reserved_quantity p + dr)
          else (Product.stock_quantity p, Product.reserved_quantity p)).
Proof.
  intros Hget. unfold quantities. rewrite get_product_moved, Hget. simpl.
  now destruct (cond p).
Qed.

Lemma get_other_product_moved cond ds dr now t d product_id other :
  other <> product_id ->
  (forall p, cond p = true -> Product.id p = product_id) ->
  Database.get_product_by_id other (moved cond ds dr now t d)
  = Database.get_product_by_id other d.
Proof.
  intros Hne Hcond. rewrite get_product_moved.
  destruct (Database.get_product_by_id other d) as [p|] eqn:E; [|reflexivity].
  simpl. destruct (cond p) eqn:Hc; [|reflexivity].
  apply Hcond in Hc. apply fetchone_has_id in E. congruence.
Qed.

Lemma has_id_reserved_id product_id quantity p :
  has_id_reserved product_id quantity p = true -> Product.id p = product_id.
Proof. intros H. now apply has_id_reserved_true in H. Qed.

Lemma found_reserved product_id quantity d p :
  Database.get_product_by_id product_id d = Some p ->
  quantity <= Product.reserved_quantity p ->
  has_id_reserved product_id quantity p = true
  /\ (rowcount (has_id_reserved product_id quantity) (products d) >? 0) = true.
Proof.
  intros Hget Hq. pose proof Hget as Hin. apply find_some in Hin.
  destruct Hin as [Hin _].
  assert (Hc : has_id_reserved product_id quantity p = true)
    by (apply has_id_reserved_true; split; [exact (fetchone_has_id _ _ _ Hget) | exact Hq]).
  split; [exact Hc|]. apply Z.gtb_lt, rowcount_positive. now exists p.
Qed.

(** The run of a reservation that passes its test. *)
Lemma reserve_stock_run now product_id quantity order_id d p :
  Database.get_product_by_id product_id d = Some p ->
  quantity <= Product.available_quantity p ->
  Database.reserve_stock now product_id quantity order_id d
  = (true,
     [set_products
        (update_rows (has_id product_id) (bump 0 quantity now) (products d)) d;
      moved (has_id product_id) 0 quantity now
        (entry now product_id RESERVE quantity (Some order_id) None "" d) d]).
Proof.
  unfold Database.get_product_by_id, Database.reserve_stock,
    Product.available_quantity.
  intros -> Hq.
  replace (_ >=? quantity) with true; [reflexivity|].
  symmetry. rewrite Z.geb_leb. now apply Z.leb_le.
Qed.

Lemma release_stock_run now product_id quantity order_id d p :
  Database.get_product_by_id product_id d = Some p ->
  quantity <= Product.reserved_quantity p ->
  Database.release_stock now product_id quantity order_id d
  = (true,
     [set_products
        (update_rows (has_id_reserved product_id quantity)
           (bump 0 (- quantity) now) (products d)) d;
      moved (has_id_reserved product_id quantity) 0 (- quantity) now
        (entry now product_id RELEASE quantity (Some order_id) None "" d) d]).
Proof.
  intros Hget Hq. unfold Database.release_stock.
  now rewrite (proj2 (found_reserved product_id quantity d p Hget Hq)).
Qed.

Lemma sell_product_run now product_id quantity order_id d p :
  Database.get_product_by_id product_id d = Some p ->
  quantity <= Product.reserved_quantity p ->
  Database.sell_product now product_id quantity order_id d
  = (true,
     [set_products
        (update_rows (has_id_reserved product_id quantity)
           (bump (- quantity) (- quantity) now) (products d)) d;
      moved (has_id_reserved product_id quantity) (- quantity) (- quantity) now
        (entry now product_id SALE quantity (Some order_id) None "" d) d]).
Proof.
  intros Hget Hq. unfold Database.sell_product.
  now rewrite (proj2 (found_reserved product_id quantity d p Hget Hq)).
Qed.

(** [reserve_stock], when the product exists and has the quantity available:
    it returns [True], raises [reserved_quantity] by the quantity, leaves
    [stock_quantity], the other products, the orders and their items alone,
    and appends one RESERVE entry that names the order. *)
Theorem reserve_stock_reserves now product_id quantity order_id d p :
  Database.get_product_by_id product_id d = Some p ->
  quantity <= Product.available_quantity p ->
  exists commits t,
    Database.reserve_stock now product_id quantity order_id d = (true, commits)
    /\ quantities product_id (final d commits)
       = Some (Product.stock_quantity p, Product.reserved_quantity p + quantity)
    /\ (forall other, other <> product_id ->
          Database.get_product_by_id other (final d commits)
          = Database.get_product_by_id other d)
    /\ inventory_transactions (final d commits)
       = inventory_transactions d ++ [t]
    /\ documents RESERVE order_id product_id quantity t
    /\ orders (final d commits) = orders d
    /\ order_items (final d commits) = order_items d.
Proof.
  intros Hget Hq. eexists _, _.
  split; [exact (reserve_stock_run now product_id quantity order_id d p Hget Hq)|].
  unfold final. simpl last. split; [|split; [|repeat split]].
  - rewrite (quantities_moved _ _ _ _ _ _ _ p Hget).
    rewrite (proj2 (has_id_true product_id p) (fetchone_has_id _ _ _ Hget)).
    f_equal. f_equal. lia.
  - intros other Hne. apply (get_other_product_moved _ _ _ _ _ _ product_id); auto.
    intros q. apply has_id_true.
Qed.

Lemma reserve_stock_reserves_witness :
  exists commits,
    Database.reserve_stock 101 1 7 1 shop = (true, commits)
    /\ quantities 1 (final shop commits) = Some (10, 7).
Proof.
  destruct (reserve_stock_reserves 101 1 7 1 shop
              (Product.mk 1 "P" "" one 10 0 5 100 100) eq_refl)
    as (commits & t & Hrun & Hq & _).
  - vm_compute. discriminate.
  - exists commits. split; [exact Hrun | exact Hq].
Defined.

(** [release_stock] and [sell_product], when the product exists and holds
    the quantity in reservation: both return [True] and append one entry,
    RELEASE or SALE, that names the order; the release takes the quantity
    off [reserved_quantity] only, the sale off [stock_quantity] as well.
    Other products, the orders and their items are left alone. *)
Theorem release_and_sale_take_the_reservation now product_id quantity order_id d p :
  Database.get_product_by_id product_id d = Some p ->
  quantity <= Product.reserved_quantity p ->
  (exists commits t,
     Database.release_stock now product_id quantity order_id d = (true, commits)
     /\ quantities product_id (final d commits)
        = Some (Product.stock_quantity p, Product.reserved_quantity p - quantity)
     /\ (forall other, other <> product_id ->
           Database.get_product_by_id other (final d commits)
           = Database.get_product_by_id other d)
     /\ inventory_transactions (final d commits)
        = inventory_transactions d ++ [t]
     /\ documents RELEASE order_id product_id quantity t
     /\ orders (final d commits) = orders d
     /\ order_items (final d commits) = order_items d)
  /\ (exists commits t,
        Database.sell_product now product_id quantity order_id d = (true, commits)
        /\ quantities product_id (final d commits)
           = Some (Product.stock_quantity p - quantity,
                   Product.reserved_quantity p - quantity)
        /\ (forall other, other <> product_id ->
              Database.get_product_by_id other (final d commits)
              = Database.get_product_by_id other d)
        /\ inventory_transactions (final d commits)
           = inventory_transactions d ++ [t]
        /\ documents SALE order_id product_id quantity t
        /\ orders (final d commits) = orders d
        /\ order_items (final d commits) = order_items d).
Proof.
  intros Hget Hq.
  pose proof (proj1 (found_reserved product_id quantity d p Hget Hq)) as Hc.
  split; eexists _, _.
  - split; [exact (release_stock_run now product_id quantity order_id d p Hget Hq)|].
    unfold final. simpl last. split; [|split; [|repeat split]].
    + rewrite (quantities_moved _ _ _ _ _ _ _ p Hget), Hc. f_equal. f_equal; lia.
    + intros other Hne.
      apply (get_other_product_moved _ _ _ _ _ _ product_id); auto.
      intros q. apply has_id_reserved_id.
  - split; [exact (sell_product_run now product_id quantity order_id d p Hget Hq)|].
    unfold final. simpl last. split; [|split; [|repeat split]].
    + rewrite (quantities_moved _ _ _ _ _ _ _ p Hget), Hc. f_equal.
    + intros other Hne.
      apply (get_other_product_moved _ _ _ _ _ _ product_id); auto.
      intros q. apply has_id_reserved_id.
Qed.

Lemma release_and_sale_take_the_reservation_witness :
  exists commits,
    Database.sell_product 103 1 7 1 shop_placed = (true, commits)
    /\ quantities 1 (final shop_placed commits) = Some (3, 0).
Proof.
  destruct (release_and_sale_take_the_reservation 103 1 7 1 shop_placed
              (Product.mk 1 "P" "" one 10 7 5 100 101) eq_refl)
    as (_ & commits & t & Hrun & Hq & _).
  - vm_compute. discriminate.
  - exists commits. split; [exact Hrun | exact Hq].
Defined.

(** A reservation that passed, on a product whose reservations were not
    negative, is undone by the release of the same quantity (stock and
    reservations read as before the two calls) and is consumed by its sale
    (the quantity is off the stock, the reservations read as before). *)
Theorem reservation_released_or_sold now now' product_id quantity order_id d p :
  Database.get_product_by_id product_id d = Some p ->
  quantity <= Product.available_quantity p ->
  0 <= Product.reserved_quantity p ->
  exists d1,
    Database.reserve_stock now product_id quantity order_id d
    = (true, snd (Database.reserve_stock now product_id quantity order_id d))
    /\ d1 = final d (snd (Database.reserve_stock now product_id quantity order_id d))
    /\ (exists commits,
          Database.release_stock now' product_id quantity order_id d1
          = (true, commits)
          /\ quantities product_id (final d1 commits) = quantities product_id d)
    /\ (exists commits,
          Database.sell_product now' product_id quantity order_id d1
          = (true, commits)
          /\ quantities product_id (final d1 commits)
             = Some (Product.stock_quantity p - quantity,
                     Product.reserved_quantity p)).
Proof.
  intros Hget Hq Hr.
  rewrite (reserve_stock_run now product_id quantity order_id d p Hget Hq).
  eexists. split; [reflexivity|]. split; [reflexivity|].
  unfold final at 1 3. simpl last.
  set (d1 := moved (has_id product_id) 0 quantity now _ d).
  assert (Hget1 : Database.get_product_by_id product_id d1
                  = Some (bump 0 quantity now p)).
  { subst d1. rewrite get_product_moved, Hget. simpl.
    now rewrite (proj2 (has_id_true product_id p) (fetchone_has_id _ _ _ Hget)). }
  assert (Hq1 : quantity <= Product.reserved_quantity (bump 0 quantity now p))
    by (simpl; lia).
  pose proof (proj1 (found_reserved product_id quantity d1 _ Hget1 Hq1)) as Hc.
  split; eexists.
  - split; [exact (release_stock_run now' product_id quantity order_id d1 _
                     Hget1 Hq1)|].
    unfold final. simpl last.
    rewrite (quantities_moved _ _ _ _ _ _ _ _ Hget1), Hc.
    unfold quantities. rewrite Hget. simpl. f_equal. f_equal; lia.
  - split; [exact (sell_product_run now' product_id quantity order_id d1 _
                     Hget1 Hq1)|].
    unfold final. simpl last.
    rewrite (quantities_moved _ _ _ _ _ _ _ _ Hget1), Hc. simpl.
    f_equal. f_equal; lia.
Qed.

Lemma reservation_released_or_sold_witness :
  exists d1 commits,
    d1 = final shop (snd (Database.reserve_stock 101 1 7 1 shop))
    /\ Database.release_stock 102 1 7 1 d1 = (true, commits)
    /\ quantities 1 (final d1 commits) = quantities 1 shop.
Proof.
  destruct (reservation_released_or_sold 101 102 1 7 1 shop
              (Product.mk 1 "P" "" one 10 0 5 100 100) eq_refl)
    as (d1 & _ & Hd1 & (commits & Hrun & Hq) & _).
  - vm_compute. discriminate.
  - simpl. lia.
  - exists d1, commits. auto.
Defined.


(** * Beyond the claims: what is created can be read back *)

Lemma fetchone_app {row : Type} (key : row -> bool) rows rows' :
  fetchone key (rows ++ rows')
  = match fetchone key rows with
    | Some r => Some r
    | None => fetchone key rows'
    end.
Proof.
  unfold fetchone. induction rows as [|r rows IH]; simpl; [reflexivity|].
  destruct (key r); [reflexivity | exact IH].
Qed.

Lemma fetchone_fresh_id product_id rows :
  ~ In product_id (map Product.id rows) ->
  fetchone (has_id product_id) rows = None.
Proof.
  intros Hfresh. destruct (fetchone (has_id product_id) rows) as [p|] eqn:E;
    [|reflexivity].
  exfalso. apply Hfresh. exact (fetchone_in_ids _ _ _ E).
Qed.

(** [create_product] and [get_product_by_id]: the product returned has an id
    that no product had, no reservation and the stock asked for; it is what
    [get_product_by_id] then returns for that id, every product that was
    there is returned as before, and the transaction log gains the RESTOCK
    entry of the initial stock. *)
Theorem create_product_then_get now name description price stock_quantity
    low_stock_threshold d :
  exists product commits t,
    Database.create_product now name description price stock_quantity
      low_stock_threshold d = (product, commits)
    /\ ~ In (Product.id product) (map Product.id (products d))
    /\ Product.stock_quantity product = stock_quantity
    /\ Product.reserved_quantity product = 0
    /\ Database.get_product_by_id (Product.id product) (final d commits)
       = Some product
    /\ (forall other p,
          Database.get_product_by_id other d = Some p ->
          Database.get_product_by_id other (final d commits) = Some p)
    /\ inventory_transactions (final d commits) = inventory_transactions d ++ [t]
    /\ InventoryTransaction.product_id t = Product.id product
    /\ InventoryTransaction.transaction_type t = RESTOCK
    /\ InventoryTransaction.quantity t = stock_quantity.
Proof.
  eexists _, _, _. split; [reflexivity|].
  pose proof (next_id_fresh (products d)) as Hfresh.
  unfold final. simpl last. unfold Database.get_product_by_id. simpl.
  split; [exact Hfresh|]. split; [reflexivity|]. split; [reflexivity|].
  split; [|split; [|repeat split]].
  - unfold insert. rewrite fetchone_app, (fetchone_fresh_id _ _ Hfresh). simpl.
    unfold has_id. simpl. now rewrite Z.eqb_refl.
  - intros other p Hget. unfold insert. now rewrite fetchone_app, Hget.
Qed.

Lemma reserve_items_runs now order_id items w :
  Forall (fun ey => can_reserve w (fst ey) (snd ey)) (with_earlier items) ->
  exists w', Database.reserve_items now order_id items w = Some w'.
Proof.
  intros Hall. pose proof (reserve_items_outcome now order_id items w) as Hout.
  destruct (Database.reserve_items now order_id items w) as [w'|];
    [now exists w'|].
  exfalso. apply Exists_exists in Hout. destruct Hout as ([e y] & Hin & Hno).
  rewrite Forall_forall in Hall.
  exact (can_cannot_reserve w e y (Hall _ Hin) Hno).
Qed.

Lemma reserve_items_stops now order_id items w :
  Exists (fun ey => cannot_reserve w (fst ey) (snd ey)) (with_earlier items) ->
  Database.reserve_items now order_id items w = None.
Proof.
  intros Hex. pose proof (reserve_items_outcome now order_id items w) as Hout.
  destruct (Database.reserve_items now order_id items w) as [w'|];
    [|reflexivity].
  exfalso. apply Exists_exists in Hex. destruct Hex as ([e y] & Hin & Hno).
  rewrite Forall_forall in Hout.
  exact (can_cannot_reserve w e y (Hout _ Hin) Hno).
Qed.

(** No overselling, one call after the other: of two orders for the same
    product that together ask for more than is available, the first, which
    fits, is placed and the second is rejected; what the first order
    reserved is off the available quantity. *)
Theorem second_order_cannot_oversell now now' customer customer' product_id
    quantity quantity' price price' d p :
  Database.get_product_by_id product_id d = Some p ->
  quantity <= Product.available_quantity p ->
  Product.available_quantity p < quantity + quantity' ->
  exists order d1,
    Database.create_order now customer [OrderItem.mk product_id quantity price] d
    = (Some order, [d1])
    /\ option_map Product.available_quantity
         (Database.get_product_by_id product_id d1)
       = Some (Product.available_quantity p - quantity)
    /\ Database.create_order now' customer'
         [OrderItem.mk product_id quantity' price'] d1
       = (None, []).
Proof.
  intros Hget Hq Hq'. unfold Database.create_order.
  match goal with
  | |- context [Database.reserve_items now ?oid ?items ?w] =>
      destruct (reserve_items_runs now oid items w) as [w' Hrun]
  end.
  { repeat constructor. unfold can_reserve. simpl.
    unfold Database.get_product_by_id in *. simpl. rewrite Hget. lia. }
  rewrite Hrun. eexists _, w'. split; [reflexivity|].
  apply reserve_items_some in Hrun. destruct Hrun as (_ & _ & Hp & _).
  assert (Hget' : Database.get_product_by_id product_id w'
                  = Some (bump 0 quantity now p)).
  { unfold Database.get_product_by_id in *. rewrite Hp. simpl.
    rewrite fetchone_map by (intros r; unfold has_id; now rewrite reserve_row_id).
    rewrite Hget. simpl. unfold reserve_row. simpl.
    now rewrite (proj2 (has_id_true product_id p) (fetchone_has_id _ _ _ Hget)). }
  split.
  - rewrite Hget'. simpl. unfold Product.available_quantity in *. simpl.
    f_equal. lia.
  - rewrite reserve_items_stops; [reflexivity|].
    apply Exists_cons_hd. unfold cannot_reserve. simpl.
    unfold Database.get_product_by_id in *. simpl. rewrite Hget'.
    unfold Product.available_quantity in *. simpl. lia.
Qed.

Lemma second_order_cannot_oversell_witness :
  exists order d1,
    Database.create_order 101 42 [OrderItem.mk 1 10 one] shop = (Some order, [d1])
    /\ Database.create_order 102 43 [OrderItem.mk 1 1 one] d1 = (None, []).
Proof.
  destruct (second_order_cannot_oversell 101 102 42 43 1 10 1 one one shop
              (Product.mk 1 "P" "" one 10 0 5 100 100) eq_refl)
    as (order & d1 & Hrun & _ & Hno).
  - vm_compute. discriminate.
  - vm_compute. reflexivity.
  - exists order, d1. auto.
Defined.

Lemma filter_all {A : Type} (f : A -> bool) l :
  (forall x, In x l -> f x = true) -> filter f l = l.
Proof.
  induction l as [|x l IH]; intros H; [reflexivity|]. simpl.
  rewrite (H x) by now left. f_equal. apply IH. intros y Hy. apply H. now right.
Qed.

Lemma filter_none {A : Type} (f : A -> bool) l :
  (forall x, In x l -> f x = false) -> filter f l = [].
Proof.
  induction l as [|x l IH]; intros H; [reflexivity|]. simpl.
  rewrite (H x) by now left. apply IH. intros y Hy. apply H. now right.
Qed.

Lemma fetchone_fresh_order os :
  fetchone (Database.order_has_id (next_id (map OrdersRow.id os))) os = None.
Proof.
  destruct (fetchone _ os) as [r|] eqn:E; [|reflexivity].
  apply find_some in E. destruct E as [Hin Hid].
  unfold Database.order_has_id in Hid. apply Z.eqb_eq in Hid.
  pose proof (next_id_above (map OrdersRow.id os)) as Hab.
  rewrite Forall_map, Forall_forall in Hab. specialize (Hab r Hin). lia.
Qed.

Lemma item_of_row_of_item order_id items :
  map (fun r => OrderItem.mk (OrderItemsRow.product_id r)
                  (OrderItemsRow.quantity r) (OrderItemsRow.unit_price r))
    (map (row_of_item order_id) items)
  = items.
Proof.
  rewrite map_map. rewrite <- (map_id items) at 2. apply map_ext.
  now intros [].
Qed.

(** [create_order] and [get_order_by_id], on tables whose order items all
    belong to an order: the order that [create_order] returns is what
    [get_order_by_id] then returns for its id, with the items in the order
    given; every order that could be read before is read back the same; and
    the order items still all belong to an order. *)
Theorem create_order_then_get now customer_id items d order d' :
  items_have_orders d ->
  Database.create_order now customer_id items d = (Some order, [d']) ->
  Database.get_order_by_id (Order.id order) d' = Some order
  /\ (forall other o,
        Database.get_order_by_id other d = Some o ->
        Database.get_order_by_id other d' = Some o)
  /\ items_have_orders d'.
Proof.
  intros Hfk. unfold Database.create_order.
  set (n := next_id (map OrdersRow.id (orders d))).
  destruct (Database.reserve_items now _ items _) as [w'|] eqn:Hrun;
    [|discriminate].
  intros [= <- <-]. apply reserve_items_some in Hrun.
  destruct Hrun as (Ho & Hoi & _ & _). simpl in Ho, Hoi. fold n in Hoi.
  assert (Hfresh : ~ In n (map OrdersRow.id (orders d))).
  { intros Hin. pose proof (next_id_above (map OrdersRow.id (orders d))) as Hab.
    rewrite Forall_forall in Hab. specialize (Hab _ Hin). fold n in Hab. lia. }
  assert (Hold : forall x, In x (order_items d) ->
                           Database.item_of_order n x = false).
  { intros x Hx. unfold items_have_orders in Hfk. rewrite Forall_forall in Hfk.
    specialize (Hfk x Hx). unfold Database.item_of_order. apply Z.eqb_neq.
    intros Heq. apply Hfresh. now rewrite <- Heq. }
  assert (Hnew : forall x, In x (map (row_of_item n) items) ->
                           OrderItemsRow.order_id x = n).
  { intros x Hx. apply in_map_iff in Hx. now destruct Hx as (i & <- & _). }
  unfold Database.get_order_by_id. rewrite Ho, Hoi. unfold insert.
  split; [|split].
  - simpl Order.id. rewrite fetchone_app. fold n.
    unfold n at 1. rewrite fetchone_fresh_order. fold n. simpl.
    unfold Database.order_has_id at 1. simpl. rewrite Z.eqb_refl. simpl.
    rewrite filter_app, (filter_none _ _ Hold), filter_all.
    + simpl. now rewrite item_of_row_of_item.
    + intros x Hx. unfold Database.item_of_order. apply Z.eqb_eq. now apply Hnew.
  - intros other o. rewrite fetchone_app.
    destruct (fetchone (Database.order_has_id other) (orders d)) as [r|] eqn:E;
      [|discriminate].
    intros [= <-]. rewrite filter_app, (filter_none _ (map _ items)), app_nil_r;
      [reflexivity|].
    intros x Hx. apply Hnew in Hx. unfold Database.item_of_order. rewrite Hx.
    apply Z.eqb_neq. intros ->. apply Hfresh.
    apply find_some in E. destruct E as [Hin Hid].
    unfold Database.order_has_id in Hid. apply Z.eqb_eq in Hid.
    rewrite <- Hid. now apply in_map.
  - unfold items_have_orders. rewrite Ho, Hoi. unfold insert.
    rewrite map_app. apply Forall_app. split.
    + eapply Forall_impl; [|exact Hfk]. intros r Hr. apply in_or_app. now left.
    + rewrite Forall_forall. intros x Hx. apply Hnew in Hx. rewrite Hx.
      apply in_or_app. right. now left.
Qed.

Lemma create_order_then_get_witness :
  option_map Order.items (Database.get_order_by_id 1 shop_placed)
  = Some [OrderItem.mk 1 7 one].
Proof.
  destruct (create_order_then_get 101 42 [OrderItem.mk 1 7 one] shop
              (Order.mk 1 42 [OrderItem.mk 1 7 one] PLACED 101 101 None None)
              shop_placed)
    as (Hget & _).
  - constructor.
  - reflexivity.
  - simpl in Hget. now rewrite Hget.
Defined.


(** * Beyond the claims: nothing is deleted *)
















(** * Beyond the claims: the orders *)

Lemma set_status_stamped status now r :
  stamped r -> stamped (Database.set_status status now r).
Proof.
  intros [Hp Hd]. unfold stamped. destruct status; simpl; split;
    intros H; try discriminate; auto.
Qed.

Lemma update_order_status_commit now order_id status user_id d d' :
  In d' (snd (Database.update_order_status now order_id status user_id d)) ->
  exists w,
    orders w = orders d /\ order_items w = order_items d
    /\ d' = set_orders
              (update_rows (Database.order_has_id order_id)
                 (Database.set_status status now) (orders d)) w.
Proof.
  destruct (find_order order_id d) as [row|] eqn:E.
  - destruct (update_order_status_found now order_id status user_id d row E)
      as (w & Hw & Ho & Hrun & _).
    rewrite Hrun. simpl. intros [<- | []]. exists w.
    split; [exact Ho|]. split; [|reflexivity].
    subst w. destruct status; try reflexivity; apply loop_order_items.
  - unfold find_order in E. unfold Database.update_order_status.
    rewrite E. intros [].
Qed.

Lemma run_stamped now c d :
  Forall stamped (orders d) ->
  Forall (fun d' => Forall stamped (orders d')) (run now c d).
Proof.
  intros Hd.
  destruct c as [name description price stock_quantity threshold
                | product_id kwargs | product_id quantity user_id
                | product_id quantity order_id | product_id quantity order_id
                | product_id quantity order_id | customer_id items
                | order_id status user_id];
    simpl run.
  - unfold Database.create_product. simpl. snapshots Hd.
  - unfold Database.update_product.
    destruct (Kwargs.is_empty kwargs); simpl; snapshots Hd.
  - unfold Database.restock_product.
    destruct (rowcount _ _ >? 0); simpl; snapshots Hd.
  - unfold Database.reserve_stock.
    destruct (fetchone _ _); [|constructor].
    destruct (_ >=? quantity); simpl; snapshots Hd.
  - unfold Database.release_stock.
    destruct (rowcount _ _ >? 0); simpl; snapshots Hd.
  - unfold Database.sell_product.
    destruct (rowcount _ _ >? 0); simpl; snapshots Hd.
  - unfold Database.create_order.
    destruct (Database.reserve_items _ _ items _) as [w'|] eqn:Hrun;
      [|constructor].
    apply Forall_cons; [|apply Forall_nil].
    apply reserve_items_some in Hrun. destruct Hrun as (-> & _). simpl.
    unfold insert. apply Forall_app. split; [exact Hd|].
    repeat constructor; simpl; discriminate.
  - rewrite Forall_forall. intros d' Hin.
    apply update_order_status_commit in Hin.
    destruct Hin as (w & _ & _ & ->). simpl.
    apply Forall_update_rows; [exact Hd|].
    intros r _ Hr _. now apply set_status_stamped.
Qed.

(** Orders carry the timestamp of their status.  If every order shown as
    PAID has its [paid_at] and every order shown as DELIVERED its
    [delivered_at], so it is after any sequence of calls, legal transitions
    or not. *)
Theorem orders_stay_stamped calls d :
  Forall stamped (orders d) -> Forall stamped (orders (run_all calls d)).
Proof.
  revert d. induction calls as [|[now c] calls IH]; intros d Hd; [exact Hd|].
  simpl. apply IH.
  apply (final_Forall (fun d' => Forall stamped (orders d'))); [exact Hd|].
  now apply run_stamped.
Qed.

Lemma orders_stay_stamped_witness :
  Forall stamped
    (orders
       (run_all
          [(100, create_product_call "P" "" one 10 5);
           (101, create_order_call 42 [OrderItem.mk 1 7 one]);
           (102, update_order_status_call 1 DELIVERED None);
           (103, update_order_status_call 1 PAID None)]
          empty_tables)).
Proof.
  apply (orders_stay_stamped _ empty_tables). constructor.
Defined.

(** [update_order_status] touches one order.  In what it commits, the order
    items are the same, every other order is read back as it was, by
    [get_order_by_id] too, and the order itself keeps its id, its customer
    and its creation time. *)
Theorem update_order_status_touches_one_order now order_id status user_id d d' :
  In d' (snd (Database.update_order_status now order_id status user_id d)) ->
  order_items d' = order_items d
  /\ (forall other,
        other <> order_id ->
        find_order other d' = find_order other d
        /\ Database.get_order_by_id other d' = Database.get_order_by_id other d)
  /\ exists r r',
       find_order order_id d = Some r
       /\ find_order order_id d' = Some r'
       /\ order_key r' = order_key r.
Proof.
  intros Hin. pose proof Hin as Hc.
  apply update_order_status_commit in Hc. destruct Hc as (w & Ho & Hoi & ->).
  assert (Hother : forall other, other <> order_id ->
            fetchone (Database.order_has_id other)
              (update_rows (Database.order_has_id order_id)
                 (Database.set_status status now) (orders d))
            = fetchone (Database.order_has_id other) (orders d)).
  { intros other Hne. rewrite fetchone_update_rows by reflexivity.
    destruct (fetchone (Database.order_has_id other) (orders d)) as [r|] eqn:E;
      [|reflexivity].
    simpl. apply find_some in E. destruct E as [_ Hid].
    unfold Database.order_has_id in *. apply Z.eqb_eq in Hid.
    replace (OrdersRow.id r =? order_id) with false; [reflexivity|].
    symmetry. apply Z.eqb_neq. congruence. }
  split; [exact Hoi|]. split.
  - intros other Hne. unfold find_order, Database.get_order_by_id. simpl.
    rewrite Hoi, (Hother other Hne). auto.
  - destruct (find_order order_id d) as [r|] eqn:E.
    + exists r, (Database.set_status status now r). split; [reflexivity|].
      split; [|reflexivity]. unfold find_order. simpl.
      now apply find_order_set_status.
    + exfalso. unfold find_order in E.
      unfold Database.update_order_status in Hin. now rewrite E in Hin.
Qed.

Lemma update_order_status_touches_one_order_witness :
  find_order 2 first_cancelled = find_order 2 two_orders.
Proof.
  apply (update_order_status_touches_one_order 103 1 CANCELLED None two_orders
           first_cancelled).
  - left. reflexivity.
  - discriminate.
Defined.


(** * Beyond the claims: update_product *)







(** * Beyond the claims: the queries *)

Section OrderByFacts.
Context {row : Type}.
Variable key : row -> Z.

Lemma insert_by_permutation r rows :
  Permutation (insert_by key r rows) (r :: rows).
Proof.
  induction rows as [|r' rows IH]; simpl; [reflexivity|].
  destruct (key r <=? key r'); [reflexivity|].
  rewrite IH. apply perm_swap.
Qed.

Lemma order_by_permutation rows : Permutation (order_by key rows) rows.
Proof.
  induction rows as [|r rows IH]; simpl; [constructor|].
  rewrite insert_by_permutation. now constructor.
Qed.

Lemma insert_by_ascending r rows :
  ascending key rows -> ascending key (insert_by key r rows).
Proof.
  unfold ascending. induction 1 as [|r' rows Hs IH Hall]; simpl.
  - repeat constructor.
  - destruct (key r <=? key r') eqn:Hle.
    + apply Z.leb_le in Hle. constructor; [now constructor|].
      constructor; [exact Hle|].
      eapply Forall_impl; [|exact Hall]. simpl. intros. lia.
    + apply Z.leb_gt in Hle. constructor; [exact IH|].
      rewrite insert_by_permutation. constructor; [lia | exact Hall].
Qed.

Lemma order_by_ascending rows : ascending key (order_by key rows).
Proof.
  induction rows as [|r rows IH]; simpl; [constructor|].
  now apply insert_by_ascending.
Qed.

(** On a sorted list, inserting and filtering commute. *)
Lemma filter_insert_by (f : row -> bool) r rows :
  ascending key rows ->
  filter f (insert_by key r rows)
  = if f r then insert_by key r (filter f rows) else filter f rows.
Proof.
  unfold ascending. induction 1 as [|r' rows Hs IH Hall]; simpl.
  - now destruct (f r).
  - destruct (key r <=? key r') eqn:Hle; simpl.
    + destruct (f r) eqn:Hr; [|reflexivity].
      destruct (f r') eqn:Hr'; simpl; [now rewrite Hle|].
      apply Z.leb_le in Hle.
      assert (Hhead : forall l, Forall (fun b => key r <= key b) l ->
                                insert_by key r l = r :: l).
      { intros [|b l] Hl; [reflexivity|]. simpl.
        inversion Hl; subst.
        now replace (key r <=? key b) with true by (symmetry; now apply Z.leb_le). }
      rewrite Hhead; [reflexivity|].
      apply Forall_forall. intros b Hb. apply filter_In in Hb.
      rewrite Forall_forall in Hall. specialize (Hall b (proj1 Hb)). lia.
    + rewrite IH. destruct (f r), (f r'); simpl; try reflexivity.
      now rewrite Hle.
Qed.

Lemma filter_order_by (f : row -> bool) rows :
  filter f (order_by key rows) = order_by key (filter f rows).
Proof.
  induction rows as [|r rows IH]; simpl; [reflexivity|].
  rewrite filter_insert_by by apply order_by_ascending.
  rewrite IH. now destruct (f r).
Qed.

Lemma order_by_in r rows : In r (order_by key rows) <-> In r rows.
Proof.
  split; apply Permutation_in;
    [|symmetry]; apply order_by_permutation.
Qed.
End OrderByFacts.

Lemma order_by_desc_descending {row : Type} (key : row -> Z) rows :
  descending key (order_by_desc key rows).
Proof.
  unfold descending, order_by_desc.
  pose proof (order_by_ascending (fun r => - key r) rows) as H.
  unfold ascending in H. induction H as [|r l Hs IH Hall]; constructor; auto.
  eapply Forall_impl; [|exact Hall]. simpl. intros. lia.
Qed.

(** [get_low_stock_products] and [Product.is_low_stock] agree: the query
    returns the products of the table that are low on stock, each as often
    as the table holds it, lowest stock first. *)
Theorem low_stock_query_agrees_with_is_low_stock d :
  Permutation (DatabaseQueries.get_low_stock_products d)
    (filter Product.is_low_stock (products d))
  /\ (forall p,
        In p (DatabaseQueries.get_low_stock_products d)
        <-> In p (products d) /\ Product.is_low_stock p = true)
  /\ ascending Product.stock_quantity (DatabaseQueries.get_low_stock_products d).
Proof.
  unfold DatabaseQueries.get_low_stock_products. split; [|split].
  - apply order_by_permutation.
  - intros p. rewrite order_by_in. apply filter_In.
  - apply order_by_ascending.
Qed.

Lemma audit_sum_permutation ty product_id ts ts' :
  Permutation ts ts' -> audit_sum ty product_id ts = audit_sum ty product_id ts'.
Proof.
  induction 1 as [|t ts ts' _ IH|t t' ts|ts1 ts2 ts3 _ IH1 _ IH2]; simpl.
  - reflexivity.
  - now rewrite IH.
  - destruct (_ && _), (_ && _); lia.
  - congruence.
Qed.

Lemma audit_sum_filter ty product_id ts :
  audit_sum ty product_id
    (filter (fun t => InventoryTransaction.product_id t =? product_id) ts)
  = audit_sum ty product_id ts.
Proof.
  induction ts as [|t ts IH]; simpl; [reflexivity|].
  destruct (InventoryTransaction.product_id t =? product_id) eqn:E; simpl.
  - now rewrite E, IH.
  - now rewrite andb_false_r.
Qed.

(** [get_transactions_by_product] returns the transactions of the product
    and no other, each once, newest first; the sums of the audit trail can
    be taken over what it returns. *)
Theorem product_history_is_complete product_id d :
  (forall t,
     In t (DatabaseQueries.get_transactions_by_product product_id d)
     <-> In t (inventory_transactions d)
         /\ InventoryTransaction.product_id t = product_id)
  /\ Permutation (DatabaseQueries.get_transactions_by_product product_id d)
       (filter (fun t => InventoryTransaction.product_id t =? product_id)
          (inventory_transactions d))
  /\ descending InventoryTransaction.timestamp
       (DatabaseQueries.get_transactions_by_product product_id d)
  /\ forall ty,
       audit_sum ty product_id
         (DatabaseQueries.get_transactions_by_product product_id d)
       = audit_sum ty product_id (inventory_transactions d).
Proof.
  unfold DatabaseQueries.get_transactions_by_product, order_by_desc.
  split; [|split; [|split]].
  - intros t. rewrite order_by_in, filter_In, Z.eqb_eq. tauto.
  - apply order_by_permutation.
  - apply order_by_desc_descending.
  - intros ty. rewrite (audit_sum_permutation _ _ _ _ (order_by_permutation _ _)).
    apply audit_sum_filter.
Qed.

Lemma filter_map_comm {A B : Type} (f : B -> bool) (g : A -> B) l :
  filter f (map g l) = map g (filter (fun a => f (g a)) l).
Proof.
  induction l as [|a l IH]; simpl; [reflexivity|].
  destruct (f (g a)); simpl; now rewrite IH.
Qed.

Lemma fetchone_order_unique os r :
  NoDup (map OrdersRow.id os) -> In r os ->
  fetchone (Database.order_has_id (OrdersRow.id r)) os = Some r.
Proof.
  unfold fetchone, Database.order_has_id.
  induction os as [|r' os IH]; simpl; [tauto|].
  intros Hnd Hin. inversion Hnd as [|? ? Hnotin Hnd']; subst.
  destruct Hin as [-> | Hin]; [now rewrite Z.eqb_refl|].
  destruct (OrdersRow.id r' =? OrdersRow.id r) eqn:E; [|now apply IH].
  exfalso. apply Z.eqb_eq in E. apply Hnotin. rewrite E. now apply in_map.
Qed.

(** The orders of a customer are the orders of [get_all_orders] that are
    the customer's, in the same order; and, the ids of the orders being
    distinct, each order listed is the one [get_order_by_id] returns for
    its id. *)
Theorem orders_of_a_customer customer_id d :
  DatabaseQueries.get_orders_by_customer customer_id d
  = filter (fun o => Order.customer_id o =? customer_id)
      (DatabaseQueries.get_all_orders d)
  /\ (NoDup (map OrdersRow.id (orders d)) ->
      forall o,
        In o (DatabaseQueries.get_all_orders d) ->
        Database.get_order_by_id (Order.id o) d = Some o).
Proof.
  unfold DatabaseQueries.get_orders_by_customer, DatabaseQueries.get_all_orders,
    order_by_desc.
  split.
  - rewrite filter_map_comm. simpl. now rewrite filter_order_by.
  - intros Hnd o Hin. apply in_map_iff in Hin. destruct Hin as (r & <- & Hr).
    apply order_by_in in Hr. unfold Database.get_order_by_id. simpl.
    now rewrite (fetchone_order_unique _ r Hnd Hr).
Qed.

Lemma product_unique_by_id d p :
  NoDup (map Product.id (products d)) -> In p (products d) ->
  Database.get_product_by_id (Product.id p) d = Some p.
Proof.
  intros Hnd Hin.
  destruct (Database.get_product_by_id (Product.id p) d) as [q|] eqn:E.
  - f_equal. symmetry.
    exact (get_product_by_id_unique (Product.id p) d q p Hnd E Hin eq_refl).
  - exfalso. pose proof (fetchone_none _ _ E p Hin) as H.
    unfold has_id in H. now rewrite Z.eqb_refl in H.
Qed.

(** The listings show every row once, in the order asked for:
    [get_all_products] by id, [get_all_transactions] newest first,
    [get_all_orders] newest first with the items of each order, and
    [get_all_users] by id.  The ids of the products being distinct, each
    product listed is the one [get_product_by_id] returns. *)
Theorem listings_are_complete d users :
  Permutation (DatabaseQueries.get_all_products d) (products d)
  /\ ascending Product.id (DatabaseQueries.get_all_products d)
  /\ (NoDup (map Product.id (products d)) ->
      forall p,
        In p (DatabaseQueries.get_all_products d) ->
        Database.get_product_by_id (Product.id p) d = Some p)
  /\ Permutation (DatabaseQueries.get_all_transactions d)
       (inventory_transactions d)
  /\ descending InventoryTransaction.timestamp
       (DatabaseQueries.get_all_transactions d)
  /\ Permutation (DatabaseQueries.get_all_orders d)
       (map (DatabaseQueries.order_of_row d) (orders d))
  /\ descending Order.created_at (DatabaseQueries.get_all_orders d)
  /\ Permutation (DatabaseUsers.get_all_users users) users
  /\ ascending User.id (DatabaseUsers.get_all_users users).
Proof.
  unfold DatabaseQueries.get_all_products, DatabaseQueries.get_all_transactions,
    DatabaseQueries.get_all_orders, DatabaseUsers.get_all_users, order_by_desc.
  repeat split; try apply order_by_permutation; try apply order_by_ascending;
    try apply order_by_desc_descending.
  - intros Hnd p Hin. apply order_by_in in Hin.
    now apply product_unique_by_id.
  - apply Permutation_map, order_by_permutation.
  - pose proof (order_by_desc_descending OrdersRow.created_at (orders d)) as H.
    unfold descending, order_by_desc in *.
    induction H as [|r l Hs IH Hall]; simpl; constructor; auto.
    apply Forall_map. exact Hall.
Qed.


(** * Beyond the claims: users and sessions *)

Lemma UserRole_eqb_eq a b : UserRole_eqb a b = true <-> a = b.
Proof. destruct a, b; simpl; split; intros H; congruence. Qed.

Lemma authenticate_user_some username password users user :
  DatabaseUsers.authenticate_user username password users = Some user ->
  In user users /\ User.username user = username
  /\ User.password user = password.
Proof.
  unfold DatabaseUsers.authenticate_user, DatabaseUsers.get_user_by_username.
  destruct (fetchone (DatabaseUsers.named username) users) as [u|] eqn:E;
    [|discriminate].
  destruct (String.eqb (User.password u) password) eqn:Hp; [|discriminate].
  intros [= <-]. apply find_some in E. destruct E as [Hin Hname].
  apply String.eqb_eq in Hname, Hp. auto.
Qed.

(** [authenticate_user] checks the password of the first user of that
    name: the user it returns is a user of the table, has the name and the
    password given, and is the one [get_user_by_username] finds; it returns
    [None] when no user has the name or when that user's password differs. *)
Theorem authenticate_user_checks_the_password username password users :
  match DatabaseUsers.authenticate_user username password users with
  | Some user =>
      In user users
      /\ User.username user = username
      /\ User.password user = password
      /\ DatabaseUsers.get_user_by_username username users = Some user
  | None =>
      DatabaseUsers.get_user_by_username username users = None
      \/ exists user,
           DatabaseUsers.get_user_by_username username users = Some user
           /\ User.password user <> password
  end.
Proof.
  unfold DatabaseUsers.authenticate_user, DatabaseUsers.get_user_by_username.
  destruct (fetchone (DatabaseUsers.named username) users) as [user|] eqn:E;
    [|now left].
  destruct (String.eqb (User.password user) password) eqn:Hp.
  - apply find_some in E. destruct E as [Hin Hname].
    apply String.eqb_eq in Hname, Hp. auto.
  - right. exists user. split; [reflexivity|]. now apply String.eqb_neq.
Qed.

Lemma named_other username username' u :
  username' <> username ->
  DatabaseUsers.named username u = true ->
  DatabaseUsers.named username' u = false.
Proof.
  unfold DatabaseUsers.named. intros Hne H. apply String.eqb_eq in H.
  apply String.eqb_neq. congruence.
Qed.

(** The sign-up form changes the table of the users only when it answers
    that the account is created.  Then the name has at least three
    characters, the password at least six and equals its confirmation, no
    user had the name, one user is added, as a customer; logging in with
    the name and the password now succeeds as that user; whoever could
    authenticate under another name still can, with the same result; and
    the names stay distinct if they were. *)
Theorem signup_then_login now username email password confirm users :
  match Auth.signup_submitted now username email password confirm users with
  | (Auth.AccountCreated, users') =>
      3 <= Z.of_nat (String.length username)
      /\ 6 <= Z.of_nat (String.length password)
      /\ password = confirm
      /\ DatabaseUsers.get_user_by_username username users = None
      /\ exists user,
           users' = users ++ [user]
           /\ User.username user = username
           /\ User.role user = CUSTOMER
           /\ (forall s,
                 Auth.login_submitted username password users' s
                 = (Auth.LoggedIn, Auth.login_user user s))
           /\ (forall username' password',
                 username' <> username ->
                 DatabaseUsers.authenticate_user username' password' users'
                 = DatabaseUsers.authenticate_user username' password' users)
           /\ (NoDup (map User.username users) ->
               NoDup (map User.username users'))
  | (_, users') => users' = users
  end.
Proof.
  unfold Auth.signup_submitted.
  destruct (Auth.is_empty username || Auth.is_empty password) eqn:Hempty;
    [reflexivity|].
  destruct (_ <? 3) eqn:H3; [reflexivity|].
  destruct (_ <? 6) eqn:H6; [reflexivity|].
  destruct (negb (String.eqb password confirm)) eqn:Hc; [reflexivity|].
  destruct (DatabaseUsers.get_user_by_username username users) as [u|] eqn:E;
    [reflexivity|].
  apply Z.ltb_ge in H3, H6. apply negb_false_iff, String.eqb_eq in Hc.
  apply orb_false_iff in Hempty. destruct Hempty as [Hu Hp].
  repeat (split; [assumption || reflexivity|]).
  unfold DatabaseUsers.create_user, insert. simpl.
  eexists. split; [reflexivity|]. split; [reflexivity|]. split; [reflexivity|].
  unfold DatabaseUsers.get_user_by_username in E.
  split; [|split].
  - intros s. unfold Auth.login_submitted. rewrite Hu, Hp. simpl.
    unfold DatabaseUsers.authenticate_user, DatabaseUsers.get_user_by_username.
    rewrite fetchone_app, E. simpl. unfold DatabaseUsers.named. simpl.
    now rewrite !String.eqb_refl.
  - intros username' password' Hne.
    unfold DatabaseUsers.authenticate_user, DatabaseUsers.get_user_by_username.
    rewrite fetchone_app.
    destruct (fetchone (DatabaseUsers.named username') users); [reflexivity|].
    simpl. unfold DatabaseUsers.named. simpl.
    replace (String.eqb username username') with false; [reflexivity|].
    symmetry. apply String.eqb_neq. congruence.
  - intros Hnd. rewrite map_app. simpl. apply NoDup_snoc; [exact Hnd|].
    intros Hin. apply in_map_iff in Hin. destruct Hin as (u & Hname & Hu').
    pose proof (fetchone_none _ _ E u Hu') as Hno.
    unfold DatabaseUsers.named in Hno. rewrite Hname in Hno.
    now rewrite String.eqb_refl in Hno.
Qed.

(** The login form logs in only who authenticates: when it answers that the
    user is logged in, the session holds a user of the table with the name
    and the password typed; in every other case the session is left as it
    was. *)
Theorem login_form_logs_in_who_authenticates username password users s :
  match Auth.login_submitted username password users s with
  | (Auth.LoggedIn, s') =>
      Auth.is_authenticated s' = true
      /\ exists user,
           Auth.get_current_user s' = Some user
           /\ In user users
           /\ User.username user = username
           /\ User.password user = password
  | (_, s') => s' = s
  end.
Proof.
  unfold Auth.login_submitted.
  destruct (negb (Auth.is_empty username) && negb (Auth.is_empty password));
    [|reflexivity].
  destruct (DatabaseUsers.authenticate_user username password users)
    as [user|] eqn:Hauth; [|reflexivity].
  apply authenticate_user_some in Hauth. destruct Hauth as (Hin & Hu & Hp).
  split; [reflexivity|]. exists user. auto.
Qed.

Lemma session_after_snoc events e :
  session_after (events ++ [e]) = session_step (session_after events) e.
Proof. unfold session_after. now rewrite fold_left_app. Qed.

Lemma signed_in_snoc events e :
  signed_in (events ++ [e])
  = match e with
    | Initialized => signed_in events
    | LoggedInAs user => Some user
    | LoggedOut => None
    end.
Proof. unfold signed_in. now rewrite fold_left_app. Qed.

(** A session follows its last login.  After any sequence of page runs,
    logins and logouts of a new session, the current user is the user of
    the last login unless a logout came after it, the session is
    authenticated exactly when there is one, and a page that requires a
    role goes on exactly when that user has the role. *)
Theorem session_follows_the_last_login events role :
  Auth.get_current_user (session_after events) = signed_in events
  /\ Auth.is_authenticated (session_after events)
     = (match signed_in events with Some _ => true | None => false end)
  /\ (Auth.require_role role (session_after events) = true
      <-> exists user, signed_in events = Some user /\ User.role user = role).
Proof.
  assert (H : Auth.get_current_user (session_after events) = signed_in events
              /\ Auth.is_authenticated (session_after events)
                 = (match signed_in events with Some _ => true | None => false end)).
  { induction events as [|e events IH] using rev_ind; [now split|].
    rewrite session_after_snoc, signed_in_snoc. destruct IH as [IHu IHa].
    destruct e; simpl; [|now split|now split].
    unfold Auth.get_current_user, Auth.is_authenticated, Auth.initialize_auth
      in *. simpl.
    destruct (Auth.current_user (session_after events)),
      (Auth.authenticated (session_after events)); simpl in *; auto. }
  destruct H as [Hu Ha]. split; [exact Hu|]. split; [exact Ha|].
  unfold Auth.require_role, Auth.require_auth, Auth.has_role.
  rewrite Ha, Hu. destruct (signed_in events) as [user|].
  - rewrite UserRole_eqb_eq. split.
    + intros Hr. now exists user.
    + now intros (u & [= <-] & Hr).
  - split; [discriminate | now intros (u & Hu' & _)].
Qed.


(** * Beyond the claims: the demo data and the metrics *)

Lemma nothing_listed {row : Type} (key : row -> Z) (rows : list row) :
  (Z.of_nat (List.length (order_by key rows)) =? 0)
  = match rows with [] => true | _ :: _ => false end.
Proof.
  rewrite (Permutation_length (order_by_permutation key rows)).
  now destruct rows.
Qed.

Lemma create_product_counts now name description price stock threshold d :
  List.length
    (products
       (final d
          (snd (Database.create_product now name description price stock
                  threshold d))))
  = S (List.length (products d)).
Proof.
  unfold Database.create_product, final, insert. simpl.
  rewrite length_app. simpl. lia.
Qed.

Lemma fold_left_counts {A : Type} (F : Tables -> A -> Tables) l d :
  (forall d a, List.length (products (F d a)) = S (List.length (products d))) ->
  List.length (products (fold_left F l d))
  = (List.length l + List.length (products d))%nat.
Proof.
  intros HF. revert d. induction l as [|a l IH]; intros d; [reflexivity|].
  simpl. rewrite IH, HF. lia.
Qed.

Lemma demo_products_counted now d :
  List.length
    (products
       (fold_left
          (fun d p =>
             match p with
             | (name, description, price, stock, threshold) =>
                 final d
                   (snd (Database.create_product now name description price
                           stock threshold d))
             end)
          demo_products d))
  = (8 + List.length (products d))%nat.
Proof.
  rewrite fold_left_counts; [reflexivity|].
  intros d' [[[[name description] price] stock] threshold].
  apply create_product_counts.
Qed.

(** [_create_demo_data] seeds once.  It leaves a table of users that has a
    user as it is, and the other tables as they are when there is a
    product; run again after itself it changes nothing.  On an empty table
    of users it creates the three demo accounts, each of which then
    authenticates with its password and has its role; with no product it
    creates the eight demo products. *)
Theorem create_demo_data_seeds_once now now' s :
  create_demo_data now' (create_demo_data now s) = create_demo_data now s
  /\ (fst s <> [] -> fst (create_demo_data now s) = fst s)
  /\ (products (snd s) <> [] -> snd (create_demo_data now s) = snd s)
  /\ (fst s = [] ->
      forall username password role email,
        In (username, password, role, email) demo_users ->
        exists user,
          DatabaseUsers.authenticate_user username password
            (fst (create_demo_data now s)) = Some user
          /\ User.role user = role)
  /\ (products (snd s) = [] ->
      Z.of_nat (List.length (products (snd (create_demo_data now s)))) = 8).
Proof.
  assert (Husers : fst s <> [] -> fst (create_demo_data now s) = fst s).
  { unfold create_demo_data, DatabaseUsers.get_all_users. simpl.
    rewrite nothing_listed. now destruct (fst s). }
  assert (Hproducts : products (snd s) <> [] ->
                      snd (create_demo_data now s) = snd s).
  { unfold create_demo_data, DatabaseQueries.get_all_products. simpl.
    rewrite nothing_listed. now destruct (products (snd s)). }
  assert (Hseeded : fst (create_demo_data now s) <> []
                    /\ products (snd (create_demo_data now s)) <> []).
  { split.
    - destruct (fst s) as [|u us] eqn:E.
      + unfold create_demo_data, DatabaseUsers.get_all_users.
        rewrite E. simpl. discriminate.
      + rewrite Husers; try rewrite E; discriminate.
    - destruct (products (snd s)) as [|p ps] eqn:E.
      + unfold create_demo_data at 1, DatabaseQueries.get_all_products.
        cbn [snd]. rewrite nothing_listed, E. intros H.
        apply (f_equal (@List.length _)) in H.
        rewrite demo_products_counted in H. discriminate.
      + rewrite Hproducts; try rewrite E; discriminate. }
  split; [|split; [exact Husers|split; [exact Hproducts|split]]].
  - destruct Hseeded as [Hu Hp].
    set (r := create_demo_data now s) in *.
    unfold create_demo_data, DatabaseUsers.get_all_users,
      DatabaseQueries.get_all_products.
    rewrite !nothing_listed.
    destruct (fst r) eqn:E1; [congruence|].
    destruct (products (snd r)) eqn:E2; [congruence|].
    rewrite <- E1. now destruct r.
  - intros Hempty username password role email Hin.
    unfold create_demo_data, DatabaseUsers.get_all_users. rewrite Hempty.
    simpl fst. simpl in Hin.
    destruct Hin as [H | [H | [H | []]]]; injection H as <- <- <- <-;
      eexists; split; reflexivity.
  - intros Hempty.
    destruct s as [users d]. simpl in Hempty.
    unfold create_demo_data, DatabaseQueries.get_all_products. cbn [snd].
    rewrite nothing_listed, Hempty, demo_products_counted, Hempty.
    reflexivity.
Qed.

Lemma filter_length_implied {A : Type} (f g : A -> bool) l :
  (forall x, f x = true -> g x = true) ->
  (List.length (filter f l) <= List.length (filter g l))%nat.
Proof.
  intros Hfg. induction l as [|x l IH]; simpl; [lia|].
  destruct (f x) eqn:Hf.
  - rewrite (Hfg x Hf). simpl. lia.
  - destruct (g x); simpl; lia.
Qed.

(** The counts of [calculate_order_metrics] add up: every order is counted
    under exactly one of the four statuses, the orders of today and of the
    last seven days are among all orders, and, a datetime of the day of
    [now] being at most seven days old, the orders of today are among those
    of the last seven days. *)
Theorem order_metrics_add_up {float : Type} (zero : float) add times date week
    now (orders : list Order.t) :
  let m := calculate_order_metrics zero add times date week now orders in
  total_orders m = Z.of_nat (List.length orders)
  /\ placed_orders m + paid_orders m + delivered_orders m + cancelled_orders m
     = total_orders m
  /\ 0 <= today_orders m <= total_orders m
  /\ 0 <= week_orders m <= total_orders m
  /\ ((forall t, date t = date now -> now - week <= t) ->
      today_orders m <= week_orders m).
Proof.
  unfold calculate_order_metrics, len. simpl.
  split; [reflexivity|]. split; [|split; [|split]].
  - induction orders as [|o orders IH]; [reflexivity|].
    simpl filter. simpl List.length in *. unfold status_is in *.
    destruct (Order.status o); simpl List.length; lia.
  - pose proof (filter_length_le
                  (fun o => date (Order.created_at o) =? date now) orders).
    lia.
  - pose proof (filter_length_le
                  (fun o => Order.created_at o >=? now - week) orders).
    lia.
  - intros Hday.
    pose proof (filter_length_implied
                  (fun o => date (Order.created_at o) =? date now)
                  (fun o => Order.created_at o >=? now - week) orders) as H.
    assert (Himp : forall o : Order.t,
               (date (Order.created_at o) =? date now) = true ->
               (Order.created_at o >=? now - week) = true).
    { intros o Ho. apply Z.eqb_eq in Ho.
      rewrite Z.geb_leb. apply Z.leb_le. now apply Hday. }
    specialize (H Himp).
    lia.
Qed.

(** The calendar of the witness: datetimes in seconds, days of 86400
    seconds. *)
Lemma order_metrics_add_up_witness :
  today_orders
    (calculate_order_metrics 0 Z.add (fun q _ => q) (fun t => t / 86400)
       604800 1000000 [Order.mk 1 1 [] PLACED 999000 999000 None None])
  <= week_orders
       (calculate_order_metrics 0 Z.add (fun q _ => q) (fun t => t / 86400)
          604800 1000000 [Order.mk 1 1 [] PLACED 999000 999000 None None]).
Proof.
  apply (order_metrics_add_up 0 Z.add (fun q _ => q) (fun t => t / 86400)
           604800 1000000 [Order.mk 1 1 [] PLACED 999000 999000 None None]).
  intros t Ht.
  pose proof (Z.div_mod t 86400 ltac:(lia)) as Hdt.
  pose proof (Z.mod_pos_bound t 86400 ltac:(lia)).
  rewrite Ht in Hdt. change (1000000 / 86400) with 11 in Hdt. lia.
Defined.
